(** * Dashboard tab contributions: validation and registration

    A shallow embedding of the [dashboard.tabs] extension-point handler
    (the [handleTab] closure, the loop over the contributing extensions and
    the start-up registration of the fixed tab groups), followed by the
    properties of that handler.  The tab panel component that shows the tabs
    is embedded after the handler, with its own conventions and properties.

    Conventions of the embedding:
    - values read from an extension manifest are untyped JavaScript values
      ([JSValue]); a raw tab record is an object, and a field it lacks reads
      as [JSUndefined];
    - an object is the list of its own enumerable properties in enumeration
      order, with pairwise distinct keys, because the handler reads
      [Object.keys(container)[0]];
    - the collector of an extension, the tab registry and the tab-group
      registry are sinks: the handler's observable behaviour is the sequence
      of calls it makes on them ([SinkCall]), kept in call order;
    - the imported helpers (container validators, icon utilities) are taken
      as parameters, bundled in the class [Imports]; they return to their
      caller, may report to the collector of the extension they are given
      and may change state of their own ([HostState]), but they own no
      reference to the tab registry;
    - the sinks are write-only for the handler, so a computation is a
      function from the helpers' state to its result, the calls it made and
      the helpers' next state. *)

From Stdlib Require Import List String Bool ZArith Arith Lia DecimalString DecimalNat.
Import ListNotations.
Local Open Scope string_scope.
Local Open Scope list_scope.

(** ** JavaScript values *)

(* No induction over values is needed; the nested recursion through [list]
   would only produce a useless scheme. *)
#[local] Unset Elimination Schemes.
Inductive JSValue : Type :=
| JSUndefined
| JSNull
| JSBool (b : bool)
| JSNumber (n : Z)
| JSString (s : string)
| JSArray (items : list JSValue)
| JSObject (props : list (string * JSValue)).
#[local] Set Elimination Schemes.

(** [!v] is [negb (truthy v)].  A manifest number is never NaN, so zero is
    the only falsy number; arrays and objects are truthy even when empty.
    Only the zero test is ever applied to a number, hence the integer
    carrier. *)
Definition truthy (v : JSValue) : bool :=
  match v with
  | JSUndefined | JSNull => false
  | JSBool b => b
  | JSNumber n => negb (Z.eqb n 0)
  | JSString s => negb (String.eqb s "")
  | JSArray _ | JSObject _ => true
  end.

(** The property name of array index [i]. *)
Definition indexKey (i : nat) : string :=
  NilEmpty.string_of_uint (Nat.to_uint i).

(** [Object.keys(v)].  Arrays and strings expose their indices, the other
    primitives expose nothing.  [Object.keys] throws on [undefined] and
    [null]; the handler only calls it behind the [!container] guard, so that
    case is given the empty list and is never reached.  A character of a
    model string stands for one UTF-16 code unit. *)
Definition Object_keys (v : JSValue) : list string :=
  match v with
  | JSObject props => map fst props
  | JSArray items => map indexKey (seq 0 (List.length items))
  | JSString s => map indexKey (seq 0 (String.length s))
  | _ => []
  end.

Fixpoint codeUnits (s : string) : list JSValue :=
  match s with
  | EmptyString => []
  | String c rest => JSString (String c EmptyString) :: codeUnits rest
  end.

(** Modelled from the spec: [values] of [vs/base/common/collections] is not
    among the sources.  Step 7 of the algorithm hands the validator "the
    container's value", the value stored under the single key; [values]
    lists the values of the own enumerable properties in key order. *)
Definition values (v : JSValue) : list JSValue :=
  match v with
  | JSObject props => map snd props
  | JSArray items => items
  | JSString s => codeUnits s
  | _ => []
  end.

(** Modelled from the spec: [types.isBoolean] of [vs/base/common/types] is
    not among the sources; step 1 calls it "a strict boolean-type check". *)
Definition isBoolean (v : JSValue) : bool :=
  match v with
  | JSBool _ => true
  | _ => false
  end.

(** Modelled from the spec: [Constants.mssqlProviderName] is not among the
    sources; the schema text of [provider] reads "Defaults to 'MSSQL' if not
    set". *)
Definition mssqlProviderName : string := "MSSQL".

(** Modelled from the spec: the container modules are not among the sources;
    section 3 names the three known kinds "widgets-container",
    "grid-container" and "nav-section". *)
Definition WIDGETS_CONTAINER : string := "widgets-container".

(** Modelled from the spec: see [WIDGETS_CONTAINER]. *)
Definition GRID_CONTAINER : string := "grid-container".

(** Modelled from the spec: see [WIDGETS_CONTAINER]. *)
Definition NAV_SECTION : string := "nav-section".

(** ** Records *)

(** [interface IDashboardTabContrib]: the raw record of a manifest.  The
    declared field types are not enforced at run time, so every field is a
    [JSValue]. *)
Module IDashboardTabContrib.
Record t : Type := mk {
    id : JSValue;
    title : JSValue;
    container : JSValue;
    provider : JSValue;
    when : JSValue;
    description : JSValue;
    alwaysShow : JSValue;
    isHomeTab : JSValue;
    group : JSValue;
    icon : JSValue
  }.
End IDashboardTabContrib.

(** The object literal handed to [registerTab] (line 167). *)
Module IDashboardTab.
Record t : Type := mk {
    description : JSValue;
    title : JSValue;
    container : JSValue;
    provider : JSValue;
    when : JSValue;
    id : JSValue;
    alwaysShow : JSValue;
    publisher : string;
    isHomeTab : JSValue;
    group : JSValue;
    iconClass : option string
  }.
End IDashboardTab.

(** [interface IDashboardTabGroup]. *)
Module IDashboardTabGroup.
Record t : Type := mk {
    id : string;
    title : string
  }.
End IDashboardTabGroup.

(** What the handler reads of an extension description. *)
Module IExtensionDescription.
Record t : Type := mk {
    identifier : string;
    publisher : string
  }.
End IExtensionDescription.

(** [Array.isArray(value)] separates the two shapes of a contribution. *)
Inductive Contribution : Type :=
| SingleTab (tab : IDashboardTabContrib.t)
| TabArray (tabs : list IDashboardTabContrib.t).

(** [IExtensionPointUser]; its [collector] is the sink that tags each message
    with [description]. *)
Module IExtensionPointUser.
Record t : Type := mk {
    description : IExtensionDescription.t;
    value : Contribution
  }.
End IExtensionPointUser.

(** ** Sinks *)

Inductive Severity : Type := SevError | SevWarning | SevInfo.

Record IMessage : Type := {
  severity : Severity;
  message : string
}.

Inductive SinkCall : Type :=
| Collect (source : IExtensionDescription.t) (m : IMessage)
| RegisterTab (tab : IDashboardTab.t)
| RegisterTabGroup (tabGroup : IDashboardTabGroup.t).

Definition isErrorMessage (m : IMessage) : bool :=
  match severity m with SevError => true | _ => false end.

(** The tabs registered by a sequence of calls, in call order. *)
Fixpoint registrations (calls : list SinkCall) : list IDashboardTab.t :=
  match calls with
  | [] => []
  | RegisterTab t :: rest => t :: registrations rest
  | _ :: rest => registrations rest
  end.

(** The messages collected by a sequence of calls, in call order. *)
Fixpoint diagnostics (calls : list SinkCall) : list IMessage :=
  match calls with
  | [] => []
  | Collect _ m :: rest => m :: diagnostics rest
  | _ :: rest => diagnostics rest
  end.

Fixpoint groupRegistrations (calls : list SinkCall) : list IDashboardTabGroup.t :=
  match calls with
  | [] => []
  | RegisterTabGroup g :: rest => g :: groupRegistrations rest
  | _ :: rest => groupRegistrations rest
  end.

Definition errors (calls : list SinkCall) : list IMessage :=
  filter isErrorMessage (diagnostics calls).

(** ** Effects *)

(** An imported helper: from its own state it computes a result, the
    messages it sends to the collector of the extension it was given, and its
    next state. *)
Definition Helper (S A : Type) : Type := S -> A * list IMessage * S.

Definition helperResult {S A : Type} (f : Helper S A) (s : S) : A := fst (fst (f s)).

Definition helperMessages {S A : Type} (f : Helper S A) (s : S) : list IMessage :=
  snd (fst (f s)).

Definition helperState {S A : Type} (f : Helper S A) (s : S) : S := snd (f s).

(** What the module imports and the sources do not contain.  [HostState] is
    the state owned by the helpers (style sheet, id generator);
    [localize key defaultMessage] is the function of [vs/nls]. *)
Class Imports : Type := {
  HostState : Type;
  localize : string -> string -> string;
  validateWidgetContainerContribution :
    IExtensionPointUser.t -> JSValue -> Helper HostState bool;
  validateGridContainerContribution :
    IExtensionPointUser.t -> JSValue -> Helper HostState bool;
  validateNavSectionContributionAndRegisterIcon :
    IExtensionPointUser.t -> JSValue -> Helper HostState bool;
  isValidIcon : JSValue -> IExtensionPointUser.t -> Helper HostState bool;
  createCSSRuleForIcon : JSValue -> IExtensionPointUser.t -> Helper HostState string
}.

Section Handler.

Context {imports : Imports}.

(** A computation of the handler reads and updates the state of the imported
    helpers and emits sink calls. *)
Definition M (A : Type) : Type := HostState -> A * list SinkCall * HostState.

Definition ret {A : Type} (a : A) : M A := fun h => (a, [], h).

Definition bind {A B : Type} (c : M A) (k : A -> M B) : M B :=
  fun h =>
    let '(a, out1, h1) := c h in
    let '(b, out2, h2) := k a h1 in
    (b, out1 ++ out2, h2).

Notation "x <- c ;; k" := (bind c (fun x => k))
  (at level 61, c at next level, right associativity).
Notation "c ;; k" := (bind c (fun _ => k))
  (at level 61, right associativity).

Definition call (c : SinkCall) : M unit := fun h => (tt, [c], h).

(** The observations of a run from helper state [h]. *)
Definition returned {A : Type} (c : M A) (h : HostState) : A := fst (fst (c h)).

Definition emitted {A : Type} (c : M A) (h : HostState) : list SinkCall := snd (fst (c h)).

Definition after {A : Type} (c : M A) (h : HostState) : HostState := snd (c h).

(** [extension.collector.error(msg)]. *)
Definition collector_error (extension : IExtensionPointUser.t) (msg : string) : M unit :=
  call (Collect (IExtensionPointUser.description extension)
                {| severity := SevError; message := msg |}).

(** [extension.collector.warn(msg)]. *)
Definition collector_warn (extension : IExtensionPointUser.t) (msg : string) : M unit :=
  call (Collect (IExtensionPointUser.description extension)
                {| severity := SevWarning; message := msg |}).

Definition registerTab (tab : IDashboardTab.t) : M unit := call (RegisterTab tab).

Definition registerTabGroup (tabGroup : IDashboardTabGroup.t) : M unit :=
  call (RegisterTabGroup tabGroup).

(** A call of an imported helper on behalf of [extension]. *)
Definition invoke {A : Type} (extension : IExtensionPointUser.t) (f : Helper HostState A)
  : M A :=
  fun h =>
    let '(a, msgs, h') := f h in
    (a, map (Collect (IExtensionPointUser.description extension)) msgs, h').

Definition noTitleError : string :=
  localize "dashboardTab.contribution.noTitleError" "No title specified for extension.".

Definition noDescriptionWarning : string :=
  localize "dashboardTab.contribution.noDescriptionWarning" "No description specified to show.".

Definition noContainerError : string :=
  localize "dashboardTab.contribution.noContainerError" "No container specified for extension.".

Definition moreThanOneDashboardContainersError : string :=
  localize "dashboardTab.contribution.moreThanOneDashboardContainersError"
           "Exactly 1 dashboard container must be defined per space".

(** Lines 145-159: [result] starts as [true] and the [switch] has no
    [default]. *)
Definition validateContainer (extension : IExtensionPointUser.t)
           (containerkey : option string) (containerValue : JSValue) : M bool :=
  match containerkey with
  | Some k =>
      if String.eqb k WIDGETS_CONTAINER then
        invoke extension (validateWidgetContainerContribution extension containerValue)
      else if String.eqb k GRID_CONTAINER then
        invoke extension (validateGridContainerContribution extension containerValue)
      else if String.eqb k NAV_SECTION then
        invoke extension (validateNavSectionContributionAndRegisterIcon extension containerValue)
      else ret true
  | None => ret true
  end.

(** Lines 161-164. *)
Definition resolveIcon (extension : IExtensionPointUser.t) (icon : JSValue)
  : M (option string) :=
  valid <- invoke extension (isValidIcon icon extension) ;;
  if valid then
    cls <- invoke extension (createCSSRuleForIcon icon extension) ;;
    ret (Some cls)
  else ret None.

(** Lines 111-169.  An early [return] is the end of its branch. *)
Definition handleTab (tab : IDashboardTabContrib.t) (extension : IExtensionPointUser.t)
  : M unit :=
  let description := IDashboardTabContrib.description tab in
  let container := IDashboardTabContrib.container tab in
  let provider := IDashboardTabContrib.provider tab in
  let title := IDashboardTabContrib.title tab in
  let when := IDashboardTabContrib.when tab in
  let id := IDashboardTabContrib.id tab in
  let alwaysShow := IDashboardTabContrib.alwaysShow tab in
  let isHomeTab := IDashboardTabContrib.isHomeTab tab in
  let group := IDashboardTabContrib.group tab in
  let icon := IDashboardTabContrib.icon tab in
  let alwaysShow := if negb (isBoolean alwaysShow) then JSBool true else alwaysShow in
  let publisher :=
    IExtensionDescription.publisher (IExtensionPointUser.description extension) in
  if negb (truthy title) then
    collector_error extension noTitleError
  else
    (if negb (truthy description)
     then collector_warn extension noDescriptionWarning
     else ret tt) ;;
    if negb (truthy container) then
      collector_error extension noContainerError
    else
      let defaulted := negb (truthy provider) in
      let provider := if defaulted then JSString mssqlProviderName else provider in
      let isHomeTab := if defaulted then JSBool false else isHomeTab in
      if negb (Nat.eqb (List.length (Object_keys container)) 1) then
        collector_error extension moreThanOneDashboardContainersError
      else
        let containerkey := nth_error (Object_keys container) 0 in
        let containerValue := nth 0 (values container) JSUndefined in
        result <- validateContainer extension containerkey containerValue ;;
        iconClass <- resolveIcon extension icon ;;
        if result then
          registerTab (IDashboardTab.mk description title container provider when id
                                        alwaysShow publisher isHomeTab group iconClass)
        else ret tt.

(** [for (const x of l) f(x)] and [l.forEach(f)]. *)
Fixpoint forEach {A : Type} (f : A -> M unit) (l : list A) : M unit :=
  match l with
  | [] => ret tt
  | x :: rest => f x ;; forEach f rest
  end.

(** Lines 172-179: the body of the loop over the extensions. *)
Definition handleExtension (extension : IExtensionPointUser.t) : M unit :=
  match IExtensionPointUser.value extension with
  | TabArray tabs => forEach (fun command => handleTab command extension) tabs
  | SingleTab tab => handleTab tab extension
  end.

(** Lines 109-181: the handler set on the extension point. *)
Definition setHandler (extensions : list IExtensionPointUser.t) : M unit :=
  forEach handleExtension extensions.

(** Lines 183-203. *)
Definition TabGroups : list IDashboardTabGroup.t :=
  [ IDashboardTabGroup.mk "administration" (localize "administrationTabGroup" "Administration");
    IDashboardTabGroup.mk "monitoring" (localize "monitoringTabGroup" "Monitoring");
    IDashboardTabGroup.mk "performance" (localize "performanceTabGroup" "Performance");
    IDashboardTabGroup.mk "security" (localize "securityTabGroup" "Security");
    IDashboardTabGroup.mk "troubleshooting" (localize "troubleshootingTabGroup" "Troubleshooting");
    IDashboardTabGroup.mk "settings" (localize "settingsTabGroup" "Settings") ].

(** Line 205, run once when the module is loaded. *)
Definition registerTabGroups : M unit := forEach registerTabGroup TabGroups.

End Handler.

(** ** Vocabulary of the statements

    Names for the tests [handleTab] performs, read off its lines. *)

Section Vocabulary.

Context {imports : Imports}.

(** The message of line 125, present when [!description]. *)
Definition descriptionWarning (tab : IDashboardTabContrib.t) (extension : IExtensionPointUser.t)
  : list SinkCall :=
  if truthy (IDashboardTabContrib.description tab) then []
  else [Collect (IExtensionPointUser.description extension)
                {| severity := SevWarning; message := noDescriptionWarning |}].

(** [containerkey] of line 146. *)
Definition containerkey (tab : IDashboardTabContrib.t) : option string :=
  nth_error (Object_keys (IDashboardTabContrib.container tab)) 0.

(** [containerValue] of line 147. *)
Definition containerValue (tab : IDashboardTabContrib.t) : JSValue :=
  nth 0 (values (IDashboardTabContrib.container tab)) JSUndefined.

(** The three tests the handler makes itself: title (line 119), container
    presence (line 128) and container arity (line 140). *)
Definition structurallyValid (tab : IDashboardTabContrib.t) : bool :=
  truthy (IDashboardTabContrib.title tab)
  && truthy (IDashboardTabContrib.container tab)
  && Nat.eqb (List.length (Object_keys (IDashboardTabContrib.container tab))) 1.

(** The verdict of the container-kind dispatch (lines 149-159) when it is
    run from helper state [h]. *)
Definition containerVerdict (tab : IDashboardTabContrib.t) (extension : IExtensionPointUser.t)
           (h : HostState) : bool :=
  returned (validateContainer extension (containerkey tab) (containerValue tab)) h.

(** A record is accepted when it passes the four checks: title, container
    presence, container arity and container-kind validation. *)
Definition accepted (tab : IDashboardTabContrib.t) (extension : IExtensionPointUser.t)
           (h : HostState) : bool :=
  structurallyValid tab && containerVerdict tab extension h.

(** The records of a batch of extensions, each with its extension, in the
    order the loops of lines 171-180 visit them. *)
Definition contributions (extensions : list IExtensionPointUser.t)
  : list (IExtensionPointUser.t * IDashboardTabContrib.t) :=
  flat_map (fun extension =>
              match IExtensionPointUser.value extension with
              | TabArray tabs => map (pair extension) tabs
              | SingleTab tab => [(extension, tab)]
              end) extensions.

(** The verdicts of the records of a batch, each taken in the helper state
    its record is processed in. *)
Fixpoint verdicts (records : list (IExtensionPointUser.t * IDashboardTabContrib.t))
         (h : HostState) : list bool :=
  match records with
  | [] => []
  | (extension, tab) :: rest =>
      accepted tab extension h :: verdicts rest (after (handleTab tab extension) h)
  end.


(** The number of records of a batch whose verdict is [false]. *)
Definition rejectedCount (records : list (IExtensionPointUser.t * IDashboardTabContrib.t))
           (h : HostState) : nat :=
  List.length (filter negb (verdicts records h)).


(** [handleTab] on a record paired with its extension. *)
Definition handleRecord (record : IExtensionPointUser.t * IDashboardTabContrib.t) : M unit :=
  handleTab (snd record) (fst record).

(** [registeredFrom record t]: the registered tab [t] carries the fields the
    handler copies unchanged from the raw record, and the publisher of the
    record's extension. *)
Definition registeredFrom (record : IExtensionPointUser.t * IDashboardTabContrib.t)
           (t : IDashboardTab.t) : Prop :=
  let (extension, tab) := record in
  IDashboardTab.id t = IDashboardTabContrib.id tab
  /\ IDashboardTab.title t = IDashboardTabContrib.title tab
  /\ IDashboardTab.description t = IDashboardTabContrib.description tab
  /\ IDashboardTab.container t = IDashboardTabContrib.container tab
  /\ IDashboardTab.when t = IDashboardTabContrib.when tab
  /\ IDashboardTab.group t = IDashboardTabContrib.group tab
  /\ IDashboardTab.publisher t
     = IExtensionDescription.publisher (IExtensionPointUser.description extension).

(** The object literal of line 167, for a record that gets that far. *)
Definition registeredTab (tab : IDashboardTabContrib.t) (extension : IExtensionPointUser.t)
           (iconClass : option string) : IDashboardTab.t :=
  let defaulted := negb (truthy (IDashboardTabContrib.provider tab)) in
  IDashboardTab.mk
    (IDashboardTabContrib.description tab)
    (IDashboardTabContrib.title tab)
    (IDashboardTabContrib.container tab)
    (if defaulted then JSString mssqlProviderName else IDashboardTabContrib.provider tab)
    (IDashboardTabContrib.when tab)
    (IDashboardTabContrib.id tab)
    (if negb (isBoolean (IDashboardTabContrib.alwaysShow tab))
     then JSBool true else IDashboardTabContrib.alwaysShow tab)
    (IExtensionDescription.publisher (IExtensionPointUser.description extension))
    (if defaulted then JSBool false else IDashboardTabContrib.isHomeTab tab)
    (IDashboardTabContrib.group tab)
    iconClass.

(** The call [extension.collector.error(msg)]. *)
Definition errorCall (extension : IExtensionPointUser.t) (msg : string) : SinkCall :=
  Collect (IExtensionPointUser.description extension)
          {| severity := SevError; message := msg |}.

(** The calls made by the imported helpers for a record that passes the
    handler's own three tests (lines 149-164); for any other record no helper
    runs. *)
Definition helperCalls (tab : IDashboardTabContrib.t) (extension : IExtensionPointUser.t)
           (h : HostState) : list SinkCall :=
  if structurallyValid tab then
    let validation := validateContainer extension (containerkey tab) (containerValue tab) in
    emitted validation h
    ++ emitted (resolveIcon extension (IDashboardTabContrib.icon tab)) (after validation h)
  else [].



End Vocabulary.

(** A copy of a raw record with another [provider]. *)
Definition withProvider (p : JSValue) (tab : IDashboardTabContrib.t) : IDashboardTabContrib.t :=
  IDashboardTabContrib.mk
    (IDashboardTabContrib.id tab) (IDashboardTabContrib.title tab)
    (IDashboardTabContrib.container tab) p
    (IDashboardTabContrib.when tab) (IDashboardTabContrib.description tab)
    (IDashboardTabContrib.alwaysShow tab) (IDashboardTabContrib.isHomeTab tab)
    (IDashboardTabContrib.group tab) (IDashboardTabContrib.icon tab).

(** The record of the scenario of section 8:
    [{title: "Tasks", container: {"widgets-container": widgets}, provider: "MSSQL"}],
    every other field absent. *)
Definition tasksScenario (widgets : JSValue) : IDashboardTabContrib.t :=
  IDashboardTabContrib.mk
    JSUndefined (JSString "Tasks") (JSObject [("widgets-container", widgets)])
    (JSString "MSSQL") JSUndefined JSUndefined JSUndefined JSUndefined JSUndefined JSUndefined.

(** ** A sample instance of the imports

    Used to run the handler on concrete records. *)

Module Sample.

(** The default message of a [localize] call (no language pack). *)
Definition localize (key defaultMessage : string) : string := defaultMessage.

(** A sample container validator: it accepts a list and otherwise rejects
    the value and reports it. *)
Definition validateList (what : string) (extension : IExtensionPointUser.t) (v : JSValue)
  : Helper nat bool :=
  fun h =>
    match v with
    | JSArray _ => (true, [], h)
    | _ => (false, [{| severity := SevError; message := what |}], h)
    end.

Definition isString (v : JSValue) : bool :=
  match v with
  | JSString _ => true
  | _ => false
  end.

(** [o[name]] on the property list of an object. *)
Fixpoint getProperty (name : string) (props : list (string * JSValue)) : JSValue :=
  match props with
  | [] => JSUndefined
  | (k, v) :: rest => if String.eqb k name then v else getProperty name rest
  end.

(** Modelled from the spec: [isValidIcon] of [dashboardIconUtil] is not among
    the sources.  Step 8: an icon passes shape validation when it is "either
    a plain string path, or an object with light/dark string paths". *)
Definition iconShape (icon : JSValue) : bool :=
  match icon with
  | JSString _ => true
  | JSObject props => isString (getProperty "light" props) && isString (getProperty "dark" props)
  | _ => false
  end.

(** Modelled from the spec: [isValidIcon] of [dashboardIconUtil] is not among
    the sources.  Step 8: the icon is resolved "if an icon field is present
    and passes shape validation", and "invalid icon shapes are reported by
    the icon validator". *)
Definition isValidIcon (icon : JSValue) (extension : IExtensionPointUser.t) : Helper nat bool :=
  fun h =>
    match icon with
    | JSUndefined => (false, [], h)
    | _ =>
        if iconShape icon then (true, [], h)
        else (false, [{| severity := SevError;
                         message := "property `icon` must be a string or a {dark, light} literal" |}], h)
    end.

(** Modelled from the spec: [createCSSRuleForIcon] of [dashboardIconUtil] is
    not among the sources.  Step 8: it resolves the icon "into an opaque
    icon-class token"; the helper state counts the tokens handed out. *)
Definition createCSSRuleForIcon (icon : JSValue) (extension : IExtensionPointUser.t)
  : Helper nat string :=
  fun h => (String.append "dashboard-icon-" (indexKey h), [], S h).

Definition imports : Imports :=
  Build_Imports nat localize
    (validateList "The list of widgets is expected inside widgets-container.")
    (validateList "The list of widgets or webviews is expected inside grid-container.")
    (validateList "The list of sections is expected inside nav-section.")
    isValidIcon createCSSRuleForIcon.

Definition tab (title container provider description alwaysShow isHomeTab icon : JSValue)
  : IDashboardTabContrib.t :=
  IDashboardTabContrib.mk JSUndefined title container provider JSUndefined description
                          alwaysShow isHomeTab JSUndefined icon.

(** Records used below. *)
Definition tasksTab : IDashboardTabContrib.t := tasksScenario (JSArray []).

Definition homeTabWithoutProvider : IDashboardTabContrib.t :=
  tab (JSString "Home") (JSObject [("grid-container", JSArray [])]) JSUndefined
      (JSString "A home tab") (JSBool false) (JSBool true) JSUndefined.

Definition homeTabWithEmptyProvider : IDashboardTabContrib.t :=
  withProvider (JSString "") homeTabWithoutProvider.

Definition twoContainersTab : IDashboardTabContrib.t :=
  tab (JSString "Tasks")
      (JSObject [("widgets-container", JSArray []); ("grid-container", JSObject [])])
      JSUndefined JSUndefined JSUndefined JSUndefined JSUndefined.

Definition unknownKindTab : IDashboardTabContrib.t :=
  tab (JSString "Custom") (JSObject [("webview-container", JSNull)]) (JSString "MSSQL")
      (JSString "A custom tab") (JSString "yes") JSUndefined JSUndefined.

Definition themedIconTab : IDashboardTabContrib.t :=
  tab (JSString "Themed") (JSObject [("widgets-container", JSArray [])]) (JSString "MSSQL")
      (JSString "A tab with an icon") JSUndefined JSUndefined
      (JSObject [("light", JSString "a.svg"); ("dark", JSString "b.svg")]).

Definition numberIconTab : IDashboardTabContrib.t :=
  tab (JSString "Numbered") (JSObject [("widgets-container", JSArray [])]) (JSString "MSSQL")
      (JSString "A tab with a wrong icon") JSUndefined JSUndefined (JSNumber 42).

Definition badWidgetsTab : IDashboardTabContrib.t :=
  tab (JSString "Broken") (JSObject [("widgets-container", JSNumber 3)]) (JSString "MSSQL")
      (JSString "A tab with a wrong container value") JSUndefined JSUndefined JSUndefined.

Definition emptyTab : IDashboardTabContrib.t :=
  tab JSUndefined JSUndefined JSUndefined JSUndefined JSUndefined JSUndefined JSUndefined.

Definition contoso : IExtensionDescription.t := IExtensionDescription.mk "contoso.tasks" "contoso".

Definition fabrikam : IExtensionDescription.t := IExtensionDescription.mk "fabrikam.home" "fabrikam".

Definition extension : IExtensionPointUser.t :=
  IExtensionPointUser.mk contoso
    (TabArray [tasksTab; emptyTab; numberIconTab; twoContainersTab; badWidgetsTab; themedIconTab]).

Definition extensions : list IExtensionPointUser.t :=
  [extension; IExtensionPointUser.mk fabrikam (SingleTab homeTabWithoutProvider)].

End Sample.

(** ** The tab panel component

    [PanelComponent] of [panel.component.ts]: the selection, most-recently-
    used and keyboard-focus logic of the tabbed panel.

    Conventions:
    - a tab component is known by its object identity ([TabRef]); the panel
      compares tabs with [===] only;
    - the [identifier] field of the tab components, which the panel reads and
      writes, is kept per tab in [identifierOf];
    - everything else the panel does to other objects is a call on them, kept
      in call order in [panelCalls]: the two event emitters, the [active]
      setter of a tab, the [layout] method of a tab;
    - [NgZone.run] runs its callback at once, and [idPool], the counter of the
      module, is carried with the component. *)

Definition TabRef : Type := nat.

Inductive PanelCall : Type :=
| EmitTabChange (tab : TabRef)
| EmitTabClose (tab : TabRef)
| SetActive (tab : TabRef) (val : bool)
| TabLayout (tab : TabRef).

Record PanelComponent : Type := mkPanel {
  _tabs : list TabRef;
  identifierOf : TabRef -> option string;
  _activeTab : option TabRef;
  _mru : list TabRef;
  idPool : nat;
  panelCalls : list PanelCall
}.

(** A panel before any tab is selected. *)
Definition newPanel (tabs : list TabRef) (identifiers : TabRef -> option string) (pool : nat)
  : PanelComponent :=
  mkPanel tabs identifiers None [] pool [].

Definition emitCall (c : PanelCall) (p : PanelComponent) : PanelComponent :=
  mkPanel (_tabs p) (identifierOf p) (_activeTab p) (_mru p) (idPool p) (panelCalls p ++ [c]).

Definition setTabs (tabs : list TabRef) (p : PanelComponent) : PanelComponent :=
  mkPanel tabs (identifierOf p) (_activeTab p) (_mru p) (idPool p) (panelCalls p).

Definition setActiveTab (tab : TabRef) (p : PanelComponent) : PanelComponent :=
  mkPanel (_tabs p) (identifierOf p) (Some tab) (_mru p) (idPool p) (panelCalls p).

Definition setMru (mru : list TabRef) (p : PanelComponent) : PanelComponent :=
  mkPanel (_tabs p) (identifierOf p) (_activeTab p) mru (idPool p) (panelCalls p).

(** [firstIndex(array, fn)] of [vs/base/common/arrays], imported on line 21:
    the index of the first element that satisfies [fn], and [-1] when there
    is none (the value line 247 tests for). *)
Fixpoint firstIndexFrom {A : Type} (fn : A -> bool) (array : list A) (i : Z) : Z :=
  match array with
  | [] => (-1)%Z
  | element :: rest => if fn element then i else firstIndexFrom fn rest (i + 1)%Z
  end.

Definition firstIndex {A : Type} (array : list A) (fn : A -> bool) : Z :=
  firstIndexFrom fn array 0%Z.

(** [array[i]] for an integer [i]: [undefined] outside the bounds. *)
Definition arrayGet {A : Type} (array : list A) (i : Z) : option A :=
  if (i <? 0)%Z then None else nth_error array (Z.to_nat i).

(** [array.splice(n, 1)] for an index [n] of the array. *)
Fixpoint spliceOne {A : Type} (n : nat) (array : list A) : list A :=
  match array, n with
  | [], _ => []
  | _ :: rest, O => rest
  | x :: rest, S m => x :: spliceOne m rest
  end.

(** [i === tab] on tab components. *)
Definition sameTab (tab i : TabRef) : bool := Nat.eqb i tab.

(** [i === this._activeTab]; nothing equals an absent active tab. *)
Definition isActiveTab (p : PanelComponent) (i : TabRef) : bool :=
  match _activeTab p with
  | Some active => Nat.eqb i active
  | None => false
  end.

(** Lines 244-251. *)
Definition findAndRemoveTabFromMRU (tab : TabRef) (p : PanelComponent) : PanelComponent :=
  let mruIndex := firstIndex (_mru p) (sameTab tab) in
  if negb (mruIndex =? -1)%Z
  then setMru (spliceOne (Z.to_nat mruIndex) (_mru p)) p
  else p.

(** Lines 253-258. *)
Definition setMostRecentlyUsed (tab : TabRef) (p : PanelComponent) : PanelComponent :=
  let p := findAndRemoveTabFromMRU tab p in
  setMru (tab :: _mru p) p.

(** [!i.identifier]: the field is absent or the empty string. *)
Definition lacksIdentifier (identifier : option string) : bool :=
  match identifier with
  | Some s => String.eqb s ""
  | None => true
  end.

(** ['tabIndex_' + n]. *)
Definition tabIndexIdentifier (n : nat) : string := String.append "tabIndex_" (indexKey n).

Definition setIdentifier (ids : TabRef -> option string) (tab : TabRef) (identifier : string)
  : TabRef -> option string :=
  fun i => if Nat.eqb i tab then Some identifier else ids i.

(** Lines 199-203: the loop that gives every tab an identifier. *)
Fixpoint assignIdentifiers (tabs : list TabRef) (ids : TabRef -> option string) (pool : nat)
  : (TabRef -> option string) * nat :=
  match tabs with
  | [] => (ids, pool)
  | i :: rest =>
      if lacksIdentifier (ids i)
      then assignIdentifiers rest (setIdentifier ids i (tabIndexIdentifier pool)) (S pool)
      else assignIdentifiers rest ids pool
  end.

Definition ensureIdentifiers (p : PanelComponent) : PanelComponent :=
  let '(ids, pool) := assignIdentifiers (_tabs p) (identifierOf p) (idPool p) in
  mkPanel (_tabs p) ids (_activeTab p) (_mru p) pool (panelCalls p).

(** The three kinds of argument of [selectTab] (lines 174-185); an index is
    an integer. *)
Inductive SelectInput : Type :=
| ByTab (tab : TabRef)
| ByIndex (index : Z)
| ByIdentifier (identifier : string).

(** [i.identifier === input]. *)
Definition hasIdentifier (p : PanelComponent) (input : string) (i : TabRef) : bool :=
  match identifierOf p i with
  | Some s => String.eqb s input
  | None => false
  end.

(** Lines 187-194. *)
Definition findTab (input : SelectInput) (p : PanelComponent) : option TabRef :=
  match input with
  | ByTab tab => Some tab
  | ByIndex index => arrayGet (_tabs p) index
  | ByIdentifier identifier => find (hasIdentifier p identifier) (_tabs p)
  end.

(** Lines 210-220: the callback run in the zone. *)
Definition activate (tab : TabRef) (p : PanelComponent) : PanelComponent :=
  let p := match _activeTab p with
           | Some active => emitCall (SetActive active false) p
           | None => p
           end in
  let p := setActiveTab tab p in
  let p := setMostRecentlyUsed tab p in
  let p := emitCall (SetActive tab true) p in
  emitCall (EmitTabChange tab) p.

(** Lines 185-223. *)
Definition selectTab (input : SelectInput) (p : PanelComponent) : PanelComponent :=
  if Nat.ltb 0 (List.length (_tabs p)) then
    match findTab input p with
    | Some tab =>
        let p := ensureIdentifiers p in
        if isActiveTab p tab
        then emitCall (EmitTabChange tab) p
        else activate tab p
    | None => p
    end
  else p.

(** Lines 228-230: [this._activeTab?.identifier]. *)
Definition getActiveTab (p : PanelComponent) : option string :=
  match _activeTab p with
  | Some active => identifierOf p active
  | None => None
  end.

(** Lines 235-242. *)
Definition selectOnNextTab (p : PanelComponent) : PanelComponent :=
  let activeIndex := firstIndex (_tabs p) (isActiveTab p) in
  let nextTabIndex := (activeIndex + 1)%Z in
  let nextTabIndex :=
    if (nextTabIndex =? Z.of_nat (List.length (_tabs p)))%Z then 0%Z else nextTabIndex in
  selectTab (ByIndex nextTabIndex) p.

(** Lines 264-274. *)
Definition closeTab (tab : TabRef) (p : PanelComponent) : PanelComponent :=
  let p := emitCall (EmitTabClose tab) p in
  let p := findAndRemoveTabFromMRU tab p in
  match _mru p with
  | mostRecent :: _ => selectTab (ByTab mostRecent) p
  | [] => p
  end.

(** Lines 276-278. *)
Definition layout (p : PanelComponent) : PanelComponent :=
  match _activeTab p with
  | Some active => emitCall (TabLayout active) p
  | None => p
  end.

(** Lines 128-130 and, after the query list has changed, lines 133-135. *)
Definition selectFirstTab (p : PanelComponent) : PanelComponent :=
  match _tabs p with
  | first :: _ => selectTab (ByTab first) p
  | [] => p
  end.

(** The query list takes new contents and notifies the subscriber of line
    132. *)
Definition tabsChanged (tabs : list TabRef) (p : PanelComponent) : PanelComponent :=
  selectFirstTab (setTabs tabs p).

(** What a user of the component can do to it. *)
Inductive PanelAction : Type :=
| DoSelectTab (input : SelectInput)
| DoSelectOnNextTab
| DoCloseTab (tab : TabRef)
| DoLayout
| DoTabsChanged (tabs : list TabRef).

Definition perform (a : PanelAction) (p : PanelComponent) : PanelComponent :=
  match a with
  | DoSelectTab input => selectTab input p
  | DoSelectOnNextTab => selectOnNextTab p
  | DoCloseTab tab => closeTab tab p
  | DoLayout => layout p
  | DoTabsChanged tabs => tabsChanged tabs p
  end.

Definition performAll (actions : list PanelAction) (p : PanelComponent) : PanelComponent :=
  fold_left (fun p a => perform a p) actions p.

(** The value last given to [tab.active] by a sequence of calls. *)
Fixpoint lastActive (calls : list PanelCall) (tab : TabRef) (before : option bool)
  : option bool :=
  match calls with
  | [] => before
  | SetActive t val :: rest =>
      lastActive rest tab (if Nat.eqb t tab then Some val else before)
  | _ :: rest => lastActive rest tab before
  end.

(** What [tab] was last told about [active] by the panel, if anything. *)
Definition toldActive (p : PanelComponent) (tab : TabRef) : option bool :=
  lastActive (panelCalls p) tab None.

(** The most-recently-used list holds no tab twice; the tab last told
    [active = true] is the active tab, and no other; and the list is empty
    as long as no tab was ever active. *)
Definition panelInvariant (p : PanelComponent) : Prop :=
  NoDup (_mru p)
  /\ (forall t, toldActive p t = Some true <-> _activeTab p = Some t)
  /\ (_activeTab p = None -> _mru p = []).

(** The head of the most-recently-used list, when there is one, is the
    active tab. *)
Definition mruHeadIsActive (p : PanelComponent) : Prop :=
  forall t, hd_error (_mru p) = Some t -> _activeTab p = Some t.

(** *** Keyboard focus (lines 280-323) *)

(** [focusedTabHeaderIndex]: the position, among the elements of the tab
    headers, of [document.activeElement]. *)
Definition focusedTabHeaderIndex (headers : list nat) (activeElement : option nat) : Z :=
  firstIndex headers
             (fun nativeElement =>
                match activeElement with
                | Some e => Nat.eqb nativeElement e
                | None => false
                end).

(** Lines 313-317: the index of the header that is asked to take the focus,
    if any. *)
Definition focusOnTabHeader (index : Z) (length : Z) : option Z :=
  if ((0 <=? index) && (index <=? length - 1))%Z then Some index else None.

(** Lines 297-303. *)
Definition focusPreviousTab (currentIndex : Z) (length : Z) : option Z :=
  if negb (currentIndex =? -1)%Z
  then focusOnTabHeader (if (currentIndex =? 0)%Z then length - 1 else currentIndex - 1)%Z length
  else None.

(** Lines 305-311. *)
Definition focusNextTab (currentIndex : Z) (length : Z) : option Z :=
  if negb (currentIndex =? -1)%Z
  then focusOnTabHeader (if (currentIndex =? length - 1)%Z then 0 else currentIndex + 1)%Z length
  else None.

Inductive KeyCode : Type := DownArrow | RightArrow | UpArrow | LeftArrow.

(** Lines 280-295.  [equals] is [event.equals]; the result is the header
    asked to take the focus and [eventHandled], on which [preventDefault] and
    [stopPropagation] depend. *)
Definition onKey (equals : KeyCode -> bool) (headers : list nat) (activeElement : option nat)
  : option Z * bool :=
  let currentIndex := focusedTabHeaderIndex headers activeElement in
  let length := Z.of_nat (List.length headers) in
  if equals DownArrow || equals RightArrow then (focusNextTab currentIndex length, true)
  else if equals UpArrow || equals LeftArrow then (focusPreviousTab currentIndex length, true)
  else (None, false).

(** *** Sample panels and further sample records *)

(** Three tab components: the first has an identifier, the second has none,
    the third has the empty string. *)
Definition sampleIdentifiers (i : TabRef) : option string :=
  if Nat.eqb i 10 then Some "home"
  else if Nat.eqb i 30 then Some ""
  else None.

Definition samplePanel : PanelComponent := newPanel [10; 20; 30] sampleIdentifiers 5.

(** The first tab is active. *)
Definition panelOnFirst : PanelComponent :=
  mkPanel [10; 20; 30] sampleIdentifiers (Some 10) [10] 5 [].

(** The second tab is active and the first was used before it. *)
Definition panelOnSecond : PanelComponent :=
  mkPanel [10; 20; 30] sampleIdentifiers (Some 20) [20; 10] 5 [].

(** The third tab is active, after the first and then the second. *)
Definition panelOnThird : PanelComponent :=
  mkPanel [10; 20; 30] sampleIdentifiers (Some 30) [30; 20; 10] 5 [].

Definition noContainerTab : IDashboardTabContrib.t :=
  Sample.tab (JSString "Bare") JSNull (JSString "MSSQL") JSUndefined JSUndefined JSUndefined
             JSUndefined.

Definition refusedWithIconTab : IDashboardTabContrib.t :=
  Sample.tab (JSString "Broken") (JSObject [("widgets-container", JSNumber 3)])
             (JSString "MSSQL") (JSString "A refused tab with an icon") JSUndefined JSUndefined
             (JSString "a.svg").

Definition twoProvidersTab : IDashboardTabContrib.t :=
  Sample.tab (JSString "Both") (JSObject [("grid-container", JSArray [])])
             (JSArray [JSString "MSSQL"; JSString "PGSQL"]) (JSString "A tab for two providers")
             JSUndefined (JSBool true) JSUndefined.

Definition listContainerTab : IDashboardTabContrib.t :=
  Sample.tab (JSString "Listed") (JSArray [JSString "widgets-container"]) (JSString "MSSQL")
             (JSString "A tab whose container is a list") JSUndefined JSUndefined JSUndefined.

(** *** An instance of the imports whose validators say nothing

    The container validators of this instance refuse every value without a
    word to the collector; the other imports are those of [Sample]. *)

Module Silent.

Definition refuse (extension : IExtensionPointUser.t) (v : JSValue) : Helper nat bool :=
  fun h => (false, [], h).

Definition imports : Imports :=
  Build_Imports nat Sample.localize refuse refuse refuse
                Sample.isValidIcon Sample.createCSSRuleForIcon.

(** Two records with a title, a description and a single known container. *)
Definition extensions : list IExtensionPointUser.t :=
  [IExtensionPointUser.mk Sample.contoso
     (TabArray [Sample.badWidgetsTab; Sample.themedIconTab])].

End Silent.

(** ** Sink calls of a run *)

Lemma registrations_app (l1 l2 : list SinkCall) :
  registrations (l1 ++ l2) = registrations l1 ++ registrations l2.
Proof.
  induction l1 as [| c l1 IH]; simpl; [reflexivity |].
  destruct c; simpl; rewrite IH; reflexivity.
Qed.

Lemma diagnostics_app (l1 l2 : list SinkCall) :
  diagnostics (l1 ++ l2) = diagnostics l1 ++ diagnostics l2.
Proof.
  induction l1 as [| c l1 IH]; simpl; [reflexivity |].
  destruct c; simpl; rewrite IH; reflexivity.
Qed.

Lemma errors_app (l1 l2 : list SinkCall) :
  errors (l1 ++ l2) = errors l1 ++ errors l2.
Proof.
  unfold errors. rewrite diagnostics_app. apply filter_app.
Qed.

Lemma registrations_Collect (d : IExtensionDescription.t) (ms : list IMessage) :
  registrations (map (Collect d) ms) = [].
Proof.
  induction ms as [| m ms IH]; simpl; auto.
Qed.


Lemma groupRegistrations_RegisterTabGroup (gs : list IDashboardTabGroup.t) :
  groupRegistrations (map RegisterTabGroup gs) = gs.
Proof.
  induction gs as [| g gs IH]; simpl; [reflexivity | now rewrite IH].
Qed.

Section Properties.

Context {imports : Imports}.

Implicit Types (tab : IDashboardTabContrib.t) (extension : IExtensionPointUser.t).
Implicit Types (h : HostState).

(** *** Helpers only talk to the collector *)

Lemma invoke_run {A : Type} extension (f : Helper HostState A) h :
  invoke extension f h
  = (helperResult f h,
     map (Collect (IExtensionPointUser.description extension)) (helperMessages f h),
     helperState f h).
Proof.
  unfold invoke, helperResult, helperMessages, helperState.
  destruct (f h) as [[a ms] h']. reflexivity.
Qed.

Lemma validateContainer_emits extension key v h :
  exists ms,
    emitted (validateContainer extension key v) h
    = map (Collect (IExtensionPointUser.description extension)) ms.
Proof.
  unfold validateContainer, emitted.
  destruct key as [k |]; [| exists []; reflexivity].
  repeat match goal with
         | |- context [if ?b then _ else _] => destruct b
         end;
    try (rewrite invoke_run; simpl; eexists; reflexivity).
  exists []; reflexivity.
Qed.

Lemma resolveIcon_emits extension icon h :
  exists ms,
    emitted (resolveIcon extension icon) h
    = map (Collect (IExtensionPointUser.description extension)) ms.
Proof.
  unfold resolveIcon, emitted, bind.
  rewrite invoke_run.
  destruct (helperResult (isValidIcon icon extension) h).
  - rewrite invoke_run. simpl. rewrite app_nil_r, <- map_app. eexists; reflexivity.
  - simpl. rewrite app_nil_r. eexists; reflexivity.
Qed.

Lemma registrations_validateContainer extension key v h :
  registrations (emitted (validateContainer extension key v) h) = [].
Proof.
  destruct (validateContainer_emits extension key v h) as [ms ->].
  apply registrations_Collect.
Qed.

Lemma registrations_resolveIcon extension icon h :
  registrations (emitted (resolveIcon extension icon) h) = [].
Proof.
  destruct (resolveIcon_emits extension icon h) as [ms ->].
  apply registrations_Collect.
Qed.

(** *** The run of [handleTab], branch by branch *)

Lemma handleTab_no_title tab extension h :
  truthy (IDashboardTabContrib.title tab) = false ->
  handleTab tab extension h = (tt, [errorCall extension noTitleError], h).
Proof.
  intros Ht. unfold handleTab. rewrite Ht. reflexivity.
Qed.

Lemma handleTab_no_container tab extension h :
  truthy (IDashboardTabContrib.title tab) = true ->
  truthy (IDashboardTabContrib.container tab) = false ->
  handleTab tab extension h
  = (tt, descriptionWarning tab extension ++ [errorCall extension noContainerError], h).
Proof.
  intros Ht Hc. unfold handleTab, descriptionWarning. rewrite Ht, Hc. simpl.
  unfold bind. destruct (truthy (IDashboardTabContrib.description tab)); reflexivity.
Qed.

Lemma handleTab_bad_arity tab extension h :
  truthy (IDashboardTabContrib.title tab) = true ->
  truthy (IDashboardTabContrib.container tab) = true ->
  Nat.eqb (List.length (Object_keys (IDashboardTabContrib.container tab))) 1 = false ->
  handleTab tab extension h
  = (tt, descriptionWarning tab extension
         ++ [errorCall extension moreThanOneDashboardContainersError], h).
Proof.
  intros Ht Hc Hk. unfold handleTab, descriptionWarning. rewrite Ht, Hc, Hk. simpl.
  unfold bind. destruct (truthy (IDashboardTabContrib.description tab)); reflexivity.
Qed.

Lemma handleTab_checked tab extension h :
  structurallyValid tab = true ->
  handleTab tab extension h
  = let validation := validateContainer extension (containerkey tab) (containerValue tab) in
    let h1 := after validation h in
    let resolution := resolveIcon extension (IDashboardTabContrib.icon tab) in
    (tt,
     descriptionWarning tab extension
     ++ emitted validation h
     ++ emitted resolution h1
     ++ (if returned validation h
         then [RegisterTab (registeredTab tab extension (returned resolution h1))]
         else []),
     after resolution h1).
Proof.
  unfold structurallyValid. intros Hs.
  apply andb_prop in Hs as [Hs Hk]. apply andb_prop in Hs as [Ht Hc].
  unfold handleTab, descriptionWarning, registeredTab, containerkey, containerValue,
    returned, emitted, after.
  rewrite Ht, Hc, Hk. cbv zeta. simpl negb. cbv iota.
  set (v := validateContainer _ _ _).
  set (r := resolveIcon _ _).
  unfold bind.
  destruct (truthy (IDashboardTabContrib.description tab)); simpl;
    destruct (v h) as [[res out1] h1]; simpl;
    destruct (r h1) as [[ic out2] h2]; simpl;
    destruct res; simpl; rewrite ?app_nil_r; reflexivity.
Qed.

(** A record that fails one of the handler's own three tests costs exactly
    one error, registers nothing and runs no helper. *)
Lemma handleTab_structurally_invalid tab extension h :
  structurallyValid tab = false ->
  exists msg,
    handleTab tab extension h
    = (tt, (if truthy (IDashboardTabContrib.title tab)
            then descriptionWarning tab extension else [])
           ++ [errorCall extension msg], h).
Proof.
  unfold structurallyValid. intros Hs.
  destruct (truthy (IDashboardTabContrib.title tab)) eqn:Ht.
  - destruct (truthy (IDashboardTabContrib.container tab)) eqn:Hc.
    + simpl in Hs. eexists. apply handleTab_bad_arity; assumption.
    + eexists. apply handleTab_no_container; assumption.
  - eexists. apply handleTab_no_title; assumption.
Qed.

Lemma registrations_descriptionWarning tab extension :
  registrations (descriptionWarning tab extension) = [].
Proof.
  unfold descriptionWarning.
  destruct (truthy (IDashboardTabContrib.description tab)); reflexivity.
Qed.

Lemma errors_descriptionWarning tab extension :
  errors (descriptionWarning tab extension) = [].
Proof.
  unfold descriptionWarning.
  destruct (truthy (IDashboardTabContrib.description tab)); reflexivity.
Qed.

(** The registry calls of one record: one call when the record is accepted,
    none otherwise. *)
Lemma handleTab_registrations tab extension h :
  registrations (emitted (handleTab tab extension) h)
  = if accepted tab extension h
    then [registeredTab tab extension
            (returned (resolveIcon extension (IDashboardTabContrib.icon tab))
               (after (validateContainer extension (containerkey tab) (containerValue tab)) h))]
    else [].
Proof.
  unfold accepted, containerVerdict.
  destruct (structurallyValid tab) eqn:Hs.
  - unfold emitted at 1. rewrite (handleTab_checked _ _ _ Hs). cbv zeta. simpl fst. simpl snd.
    rewrite !registrations_app, registrations_descriptionWarning,
      registrations_validateContainer, registrations_resolveIcon.
    simpl. destruct (returned _ h); reflexivity.
  - destruct (handleTab_structurally_invalid tab extension h Hs) as [msg Hrun].
    unfold emitted. rewrite Hrun. simpl fst. simpl snd.
    rewrite registrations_app.
    destruct (truthy (IDashboardTabContrib.title tab));
      rewrite ?registrations_descriptionWarning; reflexivity.
Qed.

Lemma registered_is_registeredTab tab extension h t :
  In t (registrations (emitted (handleTab tab extension) h)) ->
  accepted tab extension h = true
  /\ exists iconClass, t = registeredTab tab extension iconClass.
Proof.
  rewrite handleTab_registrations.
  destruct (accepted tab extension h); simpl; [| tauto].
  intros [<- | []]. split; [reflexivity | eexists; reflexivity].
Qed.

(** *** Provider defaulting *)

(** C1.  When the [provider] field of a raw record is absent, every tab the
    handler registers for it has the default provider name as its provider
    and [false] as its [isHomeTab], whatever [isHomeTab] the record gave. *)
Theorem absent_provider_takes_default tab extension h t :
  IDashboardTabContrib.provider tab = JSUndefined ->
  In t (registrations (emitted (handleTab tab extension) h)) ->
  IDashboardTab.provider t = JSString mssqlProviderName
  /\ IDashboardTab.isHomeTab t = JSBool false.
Proof.
  intros Hp Hin.
  apply registered_is_registeredTab in Hin as [_ [iconClass ->]].
  unfold registeredTab. rewrite Hp. split; reflexivity.
Qed.

(** C9.  A record whose [provider] is the empty string is processed exactly
    as the same record without a [provider]: the two runs coincide, and every
    tab registered for it has the default provider name and [isHomeTab]
    [false]. *)
Theorem empty_provider_is_absent_provider tab extension h :
  IDashboardTabContrib.provider tab = JSString "" ->
  handleTab tab extension h = handleTab (withProvider JSUndefined tab) extension h
  /\ forall t,
      In t (registrations (emitted (handleTab tab extension) h)) ->
      IDashboardTab.provider t = JSString mssqlProviderName
      /\ IDashboardTab.isHomeTab t = JSBool false.
Proof.
  intros Hp. split.
  - destruct tab as [i ti c p w d a ht g ic]. simpl in Hp. subst p. reflexivity.
  - intros t Hin.
    apply registered_is_registeredTab in Hin as [_ [iconClass ->]].
    unfold registeredTab. rewrite Hp. split; reflexivity.
Qed.

(** *** The [alwaysShow] default *)

(** C6.  In every tab registered for a raw record, [alwaysShow] is [true]
    when the record's [alwaysShow] is absent or not a boolean, and is the
    record's own value when that is a boolean, [false] included. *)
Theorem alwaysShow_defaults_to_true tab extension h t :
  In t (registrations (emitted (handleTab tab extension) h)) ->
  (isBoolean (IDashboardTabContrib.alwaysShow tab) = false ->
   IDashboardTab.alwaysShow t = JSBool true)
  /\ (forall b, IDashboardTabContrib.alwaysShow tab = JSBool b ->
                IDashboardTab.alwaysShow t = JSBool b).
Proof.
  intros Hin.
  apply registered_is_registeredTab in Hin as [_ [iconClass ->]].
  unfold registeredTab. simpl. split.
  - intros ->. reflexivity.
  - intros b ->. reflexivity.
Qed.

(** *** Rejections *)

(** C10.  A record whose title is missing (so, in particular, a record that
    lacks title, container and description together) produces the title error
    as its only call: no description warning, no container error, no helper
    run.  For every record, the diagnostics are the handler's own messages
    followed by those of the helpers, and the handler's own messages hold at
    most one error. *)
Theorem title_check_aborts_first tab extension h :
  (truthy (IDashboardTabContrib.title tab) = false ->
   emitted (handleTab tab extension) h = [errorCall extension noTitleError]
   /\ diagnostics (emitted (handleTab tab extension) h)
      = [{| severity := SevError; message := noTitleError |}]
   /\ after (handleTab tab extension) h = h)
  /\ exists own,
      diagnostics (emitted (handleTab tab extension) h)
      = own ++ diagnostics (helperCalls tab extension h)
      /\ List.length (filter isErrorMessage own) <= 1.
Proof.
  split.
  - intros Ht. unfold emitted, after.
    rewrite (handleTab_no_title _ _ _ Ht). repeat split; reflexivity.
  - unfold helperCalls. destruct (structurallyValid tab) eqn:Hs.
    + exists (diagnostics (descriptionWarning tab extension)). split.
      * unfold emitted at 1. rewrite (handleTab_checked _ _ _ Hs). cbv zeta. simpl fst. simpl snd.
        rewrite !diagnostics_app.
        destruct (returned _ h); simpl; rewrite ?app_nil_r; reflexivity.
      * fold (errors (descriptionWarning tab extension)).
        rewrite errors_descriptionWarning. simpl. lia.
    + destruct (handleTab_structurally_invalid tab extension h Hs) as [msg Hrun].
      exists (diagnostics
                ((if truthy (IDashboardTabContrib.title tab)
                  then descriptionWarning tab extension else [])
                 ++ [errorCall extension msg])).
      split.
      * unfold emitted. rewrite Hrun. simpl. rewrite app_nil_r. reflexivity.
      * match goal with |- List.length (filter _ (diagnostics ?l)) <= 1 => fold (errors l) end.
        rewrite errors_app.
        destruct (truthy (IDashboardTabContrib.title tab));
          rewrite ?errors_descriptionWarning; simpl; lia.
Qed.

(** C4.  A record with a title whose container is a mapping of no key, or of
    two keys or more, registers nothing and costs exactly one error, the arity
    error; the run ends there: besides the description warning nothing else is
    emitted, and the state of the helpers is untouched. *)
Theorem container_arity_is_checked tab extension h (props : list (string * JSValue)) :
  truthy (IDashboardTabContrib.title tab) = true ->
  IDashboardTabContrib.container tab = JSObject props ->
  List.length props = 0 \/ 2 <= List.length props ->
  registrations (emitted (handleTab tab extension) h) = []
  /\ errors (emitted (handleTab tab extension) h)
     = [{| severity := SevError; message := moreThanOneDashboardContainersError |}]
  /\ emitted (handleTab tab extension) h
     = descriptionWarning tab extension
       ++ [errorCall extension moreThanOneDashboardContainersError]
  /\ after (handleTab tab extension) h = h.
Proof.
  intros Ht Hc Hn.
  assert (Hrun : handleTab tab extension h
                 = (tt, descriptionWarning tab extension
                        ++ [errorCall extension moreThanOneDashboardContainersError], h)).
  { apply handleTab_bad_arity; [assumption | now rewrite Hc |].
    rewrite Hc. simpl. rewrite length_map. apply Nat.eqb_neq. lia. }
  unfold emitted, after. rewrite Hrun. simpl fst. simpl snd.
  rewrite registrations_app, errors_app, registrations_descriptionWarning,
    errors_descriptionWarning.
  repeat split; reflexivity.
Qed.

(** *** Container kinds *)

Lemma validateContainer_unknown extension (k : string) v h :
  k <> WIDGETS_CONTAINER -> k <> GRID_CONTAINER -> k <> NAV_SECTION ->
  validateContainer extension (Some k) v h = (true, [], h).
Proof.
  intros Hw Hg Hn. unfold validateContainer.
  apply String.eqb_neq in Hw, Hg, Hn. rewrite Hw, Hg, Hn. reflexivity.
Qed.

(** C3.  A record with a title whose container has a single key that is none
    of the three known kinds passes the container-kind dispatch with verdict
    [true]: no validator runs and nothing is reported for the unknown kind.
    The record is registered; the only other calls are the description
    warning and what icon resolution reports. *)
Theorem unknown_container_kind_is_accepted tab extension h (k : string) :
  truthy (IDashboardTabContrib.title tab) = true ->
  truthy (IDashboardTabContrib.container tab) = true ->
  Object_keys (IDashboardTabContrib.container tab) = [k] ->
  k <> WIDGETS_CONTAINER -> k <> GRID_CONTAINER -> k <> NAV_SECTION ->
  let resolution := resolveIcon extension (IDashboardTabContrib.icon tab) in
  validateContainer extension (containerkey tab) (containerValue tab) h = (true, [], h)
  /\ emitted (handleTab tab extension) h
     = descriptionWarning tab extension
       ++ emitted resolution h
       ++ [RegisterTab (registeredTab tab extension (returned resolution h))]
  /\ registrations (emitted (handleTab tab extension) h)
     = [registeredTab tab extension (returned resolution h)]
  /\ diagnostics (emitted (handleTab tab extension) h)
     = diagnostics (descriptionWarning tab extension) ++ diagnostics (emitted resolution h).
Proof.
  intros Ht Hc Hk Hw Hg Hn resolution.
  assert (Hv : validateContainer extension (containerkey tab) (containerValue tab) h
               = (true, [], h)).
  { unfold containerkey. rewrite Hk. simpl. apply validateContainer_unknown; assumption. }
  assert (Hs : structurallyValid tab = true).
  { unfold structurallyValid. rewrite Ht, Hc, Hk. reflexivity. }
  assert (Hrun : emitted (handleTab tab extension) h
                 = descriptionWarning tab extension
                   ++ emitted resolution h
                   ++ [RegisterTab (registeredTab tab extension (returned resolution h))]).
  { unfold emitted at 1. rewrite (handleTab_checked _ _ _ Hs). cbv zeta.
    unfold returned, emitted, after. rewrite Hv. reflexivity. }
  split; [exact Hv |]. split; [exact Hrun |]. rewrite Hrun. split.
  - rewrite !registrations_app, registrations_descriptionWarning.
    unfold resolution. rewrite registrations_resolveIcon. reflexivity.
  - rewrite !diagnostics_app. simpl. rewrite app_nil_r. reflexivity.
Qed.

(** C5 (amended).  For the record
    [{title: "Tasks", container: {"widgets-container": widgets}, provider: "MSSQL"}]
    whose widget list the widget validator accepts, the handler makes exactly
    one registry call; its tab has provider ["MSSQL"], [alwaysShow] [true],
    and an [isHomeTab] that is absent as in the record: no [false] is put in
    its place. *)
Theorem tasks_scenario_registers_once (widgets : JSValue) extension h :
  helperResult (validateWidgetContainerContribution extension widgets) h = true ->
  exists iconClass,
    registrations (emitted (handleTab (tasksScenario widgets) extension) h)
    = [IDashboardTab.mk
         JSUndefined (JSString "Tasks") (JSObject [("widgets-container", widgets)])
         (JSString "MSSQL") JSUndefined JSUndefined (JSBool true)
         (IExtensionDescription.publisher (IExtensionPointUser.description extension))
         JSUndefined JSUndefined iconClass].
Proof.
  intros Hv. rewrite handleTab_registrations.
  assert (Hacc : accepted (tasksScenario widgets) extension h = true).
  { unfold accepted, containerVerdict, returned.
    change (containerkey (tasksScenario widgets)) with (Some WIDGETS_CONTAINER).
    change (containerValue (tasksScenario widgets)) with widgets.
    unfold validateContainer. rewrite String.eqb_refl, invoke_run. exact Hv. }
  rewrite Hacc. eexists. reflexivity.
Qed.

(** *** Icons *)

Lemma resolveIcon_returned extension icon h :
  returned (resolveIcon extension icon) h
  = if helperResult (isValidIcon icon extension) h
    then Some (helperResult (createCSSRuleForIcon icon extension)
                            (helperState (isValidIcon icon extension) h))
    else None.
Proof.
  unfold resolveIcon, returned, bind. rewrite invoke_run.
  destruct (helperResult (isValidIcon icon extension) h); [| reflexivity].
  rewrite invoke_run. reflexivity.
Qed.

(** C7.  A record that passes the four checks is registered exactly once,
    whatever its icon.  When the icon validator accepts the icon, the
    registered tab carries the class token made for it; when the validator
    refuses the icon, the tab is registered all the same, without an icon
    class.  ([h1] is the helper state icon resolution starts from.) *)
Theorem icon_failure_still_registers tab extension h :
  accepted tab extension h = true ->
  let h1 := after (validateContainer extension (containerkey tab) (containerValue tab)) h in
  let icon := IDashboardTabContrib.icon tab in
  let valid := isValidIcon icon extension in
  exists t,
    registrations (emitted (handleTab tab extension) h) = [t]
    /\ registeredFrom (extension, tab) t
    /\ (helperResult valid h1 = true ->
        IDashboardTab.iconClass t
        = Some (helperResult (createCSSRuleForIcon icon extension) (helperState valid h1)))
    /\ (helperResult valid h1 = false -> IDashboardTab.iconClass t = None).
Proof.
  intros Hacc h1 icon valid.
  rewrite handleTab_registrations, Hacc.
  eexists. split; [reflexivity |].
  split; [simpl; repeat split |].
  simpl. fold h1. rewrite resolveIcon_returned. fold icon. fold valid.
  split; intros ->; reflexivity.
Qed.

(** *** Tab groups *)

(** C8.  Loading the module registers the six fixed groups, administration,
    monitoring, performance, security, troubleshooting and settings, in that
    order: six group-registry calls, one per group, and nothing else; no
    helper runs and nothing is reported. *)
Theorem tab_groups_are_registered_in_order h :
  emitted registerTabGroups h
  = [ RegisterTabGroup
        (IDashboardTabGroup.mk "administration"
           (localize "administrationTabGroup" "Administration"));
      RegisterTabGroup
        (IDashboardTabGroup.mk "monitoring" (localize "monitoringTabGroup" "Monitoring"));
      RegisterTabGroup
        (IDashboardTabGroup.mk "performance" (localize "performanceTabGroup" "Performance"));
      RegisterTabGroup
        (IDashboardTabGroup.mk "security" (localize "securityTabGroup" "Security"));
      RegisterTabGroup
        (IDashboardTabGroup.mk "troubleshooting"
           (localize "troubleshootingTabGroup" "Troubleshooting"));
      RegisterTabGroup
        (IDashboardTabGroup.mk "settings" (localize "settingsTabGroup" "Settings")) ]
  /\ groupRegistrations (emitted registerTabGroups h) = TabGroups
  /\ List.length (emitted registerTabGroups h) = 6
  /\ NoDup (map IDashboardTabGroup.id (groupRegistrations (emitted registerTabGroups h)))
  /\ after registerTabGroups h = h.
Proof.
  assert (Hrun : emitted registerTabGroups h = map RegisterTabGroup TabGroups)
    by reflexivity.
  split; [reflexivity |].
  rewrite Hrun, groupRegistrations_RegisterTabGroup.
  split; [reflexivity |]. split; [reflexivity |]. split; [| reflexivity].
  simpl. repeat constructor; simpl; intuition discriminate.
Qed.

(** *** Batches *)

Lemma emitted_bind {A B : Type} (c : M A) (k : A -> M B) h :
  emitted (bind c k) h = emitted c h ++ emitted (k (returned c h)) (after c h).
Proof.
  unfold emitted, returned, after, bind.
  destruct (c h) as [[a out1] h1]. simpl.
  destruct (k a h1) as [[b out2] h2]. reflexivity.
Qed.

Lemma after_bind {A B : Type} (c : M A) (k : A -> M B) h :
  after (bind c k) h = after (k (returned c h)) (after c h).
Proof.
  unfold returned, after, bind.
  destruct (c h) as [[a out1] h1]. simpl.
  destruct (k a h1) as [[b out2] h2]. reflexivity.
Qed.

Lemma run_unit (c : M unit) h : c h = (tt, emitted c h, after c h).
Proof.
  unfold emitted, after. destruct (c h) as [[[] out] h']. reflexivity.
Qed.

Lemma emitted_forEach_cons {A : Type} (f : A -> M unit) (x : A) (l : list A) h :
  emitted (forEach f (x :: l)) h = emitted (f x) h ++ emitted (forEach f l) (after (f x) h).
Proof.
  simpl forEach. apply emitted_bind.
Qed.

Lemma after_forEach_cons {A : Type} (f : A -> M unit) (x : A) (l : list A) h :
  after (forEach f (x :: l)) h = after (forEach f l) (after (f x) h).
Proof.
  simpl forEach. apply after_bind.
Qed.

Lemma after_forEach_app {A : Type} (f : A -> M unit) (l1 l2 : list A) h :
  after (forEach f (l1 ++ l2)) h = after (forEach f l2) (after (forEach f l1) h).
Proof.
  revert h. induction l1 as [| x l1 IH]; intros h; [reflexivity |].
  rewrite <- app_comm_cons, !after_forEach_cons. apply IH.
Qed.

Lemma emitted_forEach_app {A : Type} (f : A -> M unit) (l1 l2 : list A) h :
  emitted (forEach f (l1 ++ l2)) h
  = emitted (forEach f l1) h ++ emitted (forEach f l2) (after (forEach f l1) h).
Proof.
  revert h. induction l1 as [| x l1 IH]; intros h; [reflexivity |].
  rewrite <- app_comm_cons, !emitted_forEach_cons, after_forEach_cons, IH.
  apply app_assoc.
Qed.

Lemma forEach_map {A B : Type} (f : B -> M unit) (g : A -> B) (l : list A) h :
  forEach f (map g l) h = forEach (fun x => f (g x)) l h.
Proof.
  revert h. induction l as [| x l IH]; intros h; [reflexivity |].
  simpl. unfold bind. destruct (f (g x) h) as [[a out1] h1]. rewrite IH. reflexivity.
Qed.

Lemma forEach_single {A : Type} (f : A -> M unit) (x : A) h :
  forEach f [x] h = f x h.
Proof.
  simpl. unfold bind, ret. destruct (f x h) as [[[] out] h'].
  rewrite app_nil_r. reflexivity.
Qed.

(** The two loops of lines 171-180 visit the records of [contributions] one
    after the other. *)
Lemma handleExtension_contributions extension h :
  handleExtension extension h = forEach handleRecord (contributions [extension]) h.
Proof.
  unfold handleExtension, contributions. simpl. rewrite app_nil_r.
  destruct (IExtensionPointUser.value extension) as [tab | tabs].
  - rewrite forEach_single. reflexivity.
  - rewrite forEach_map. reflexivity.
Qed.

Lemma setHandler_contributions (extensions : list IExtensionPointUser.t) h :
  emitted (setHandler extensions) h = emitted (forEach handleRecord (contributions extensions)) h
  /\ after (setHandler extensions) h = after (forEach handleRecord (contributions extensions)) h.
Proof.
  unfold setHandler. revert h.
  induction extensions as [| extension rest IH]; intros h; [split; reflexivity |].
  replace (contributions (extension :: rest))
    with (contributions [extension] ++ contributions rest)
    by (unfold contributions; simpl; now rewrite app_nil_r).
  rewrite emitted_forEach_cons, after_forEach_cons, emitted_forEach_app, after_forEach_app.
  assert (He : emitted (handleExtension extension) h
               = emitted (forEach handleRecord (contributions [extension])) h)
    by (unfold emitted; now rewrite handleExtension_contributions).
  assert (Ha : after (handleExtension extension) h
               = after (forEach handleRecord (contributions [extension])) h)
    by (unfold after; now rewrite handleExtension_contributions).
  rewrite He, Ha.
  destruct (IH (after (forEach handleRecord (contributions [extension])) h)) as [-> ->].
  split; reflexivity.
Qed.












End Properties.

(** ** The properties on concrete records *)


(** C1 on a record that asks to be a home tab and names no provider. *)
Lemma absent_provider_takes_default_witness :
  exists t,
    registrations
      (emitted (handleTab (imports := Sample.imports)
                          Sample.homeTabWithoutProvider Sample.extension) 0) = [t]
    /\ IDashboardTabContrib.isHomeTab Sample.homeTabWithoutProvider = JSBool true
    /\ IDashboardTab.provider t = JSString "MSSQL"
    /\ IDashboardTab.isHomeTab t = JSBool false.
Proof.
  eexists. split; [vm_compute; reflexivity |]. split; [reflexivity |].
  apply (absent_provider_takes_default (imports := Sample.imports)
           Sample.homeTabWithoutProvider Sample.extension 0).
  - reflexivity.
  - vm_compute. left. reflexivity.
Defined.

(** C9 on the same record with [provider: ""]. *)
Lemma empty_provider_is_absent_provider_witness :
  IDashboardTabContrib.provider Sample.homeTabWithEmptyProvider = JSString ""
  /\ handleTab (imports := Sample.imports) Sample.homeTabWithEmptyProvider Sample.extension 0
     = handleTab (imports := Sample.imports)
                 (withProvider JSUndefined Sample.homeTabWithEmptyProvider) Sample.extension 0
  /\ exists t,
      registrations
        (emitted (handleTab (imports := Sample.imports)
                            Sample.homeTabWithEmptyProvider Sample.extension) 0) = [t]
      /\ IDashboardTab.provider t = JSString "MSSQL"
      /\ IDashboardTab.isHomeTab t = JSBool false.
Proof.
  pose proof (empty_provider_is_absent_provider (imports := Sample.imports)
                Sample.homeTabWithEmptyProvider Sample.extension 0 eq_refl) as [Hrun Hreg].
  split; [reflexivity |]. split; [exact Hrun |].
  eexists. split; [vm_compute; reflexivity |].
  apply Hreg. vm_compute. left. reflexivity.
Defined.

(** C6 on a record whose [alwaysShow] is the string ["yes"]. *)
Lemma alwaysShow_defaults_to_true_witness :
  exists t,
    registrations
      (emitted (handleTab (imports := Sample.imports)
                          Sample.unknownKindTab Sample.extension) 0) = [t]
    /\ IDashboardTabContrib.alwaysShow Sample.unknownKindTab = JSString "yes"
    /\ IDashboardTab.alwaysShow t = JSBool true.
Proof.
  eexists. split; [vm_compute; reflexivity |]. split; [reflexivity |].
  refine (proj1 (alwaysShow_defaults_to_true (imports := Sample.imports)
                  Sample.unknownKindTab Sample.extension 0 _ _) _).
  - vm_compute. left. reflexivity.
  - reflexivity.
Defined.

(** C6 on a record whose [alwaysShow] is [false]. *)
Example alwaysShow_false_is_kept :
  map IDashboardTab.alwaysShow
      (registrations
         (emitted (handleTab (imports := Sample.imports)
                             Sample.homeTabWithoutProvider Sample.extension) 0))
  = [JSBool false].
Proof. vm_compute. reflexivity. Qed.

(** C10 on the record with no field at all. *)
Lemma title_check_aborts_first_witness :
  truthy (IDashboardTabContrib.title Sample.emptyTab) = false
  /\ emitted (handleTab (imports := Sample.imports) Sample.emptyTab Sample.extension) 0
     = [Collect Sample.contoso
                {| severity := SevError; message := "No title specified for extension." |}].
Proof.
  split; [reflexivity |].
  apply (title_check_aborts_first (imports := Sample.imports)
           Sample.emptyTab Sample.extension 0).
  reflexivity.
Defined.

(** C4 on the record of the second scenario of section 8, with two
    containers. *)
Lemma container_arity_is_checked_witness :
  truthy (IDashboardTabContrib.title Sample.twoContainersTab) = true
  /\ List.length (Object_keys (IDashboardTabContrib.container Sample.twoContainersTab)) = 2
  /\ registrations
       (emitted (handleTab (imports := Sample.imports)
                           Sample.twoContainersTab Sample.extension) 0) = []
  /\ errors
       (emitted (handleTab (imports := Sample.imports)
                           Sample.twoContainersTab Sample.extension) 0)
     = [{| severity := SevError;
           message := "Exactly 1 dashboard container must be defined per space" |}].
Proof.
  split; [reflexivity |]. split; [reflexivity |].
  destruct (container_arity_is_checked (imports := Sample.imports)
              Sample.twoContainersTab Sample.extension 0
              [("widgets-container", JSArray []); ("grid-container", JSObject [])]
              eq_refl eq_refl (or_intror (le_n 2)))
    as (Hreg & Herr & _).
  split; [exact Hreg | exact Herr].
Defined.

(** C4 on a record whose container is the empty mapping. *)
Example empty_container_is_rejected :
  emitted (handleTab (imports := Sample.imports)
                     (Sample.tab (JSString "Empty") (JSObject []) JSUndefined (JSString "d")
                                 JSUndefined JSUndefined JSUndefined)
                     Sample.extension) 0
  = [Collect Sample.contoso
             {| severity := SevError;
                message := "Exactly 1 dashboard container must be defined per space" |}].
Proof. vm_compute. reflexivity. Qed.

(** C3 on a record whose container kind is ["webview-container"]. *)
Lemma unknown_container_kind_is_accepted_witness :
  Object_keys (IDashboardTabContrib.container Sample.unknownKindTab) = ["webview-container"]
  /\ emitted (handleTab (imports := Sample.imports) Sample.unknownKindTab Sample.extension) 0
     = [RegisterTab
          (IDashboardTab.mk (JSString "A custom tab") (JSString "Custom")
             (JSObject [("webview-container", JSNull)]) (JSString "MSSQL")
             JSUndefined JSUndefined (JSBool true) "contoso" JSUndefined JSUndefined None)].
Proof.
  split; [reflexivity |].
  destruct (unknown_container_kind_is_accepted (imports := Sample.imports)
              Sample.unknownKindTab Sample.extension 0 "webview-container"
              eq_refl eq_refl eq_refl)
    as (_ & Hrun & _); [discriminate | discriminate | discriminate |].
  rewrite Hrun. vm_compute. reflexivity.
Defined.

(** C5 as the claim has it fails: the tab registered for the scenario record
    has no [isHomeTab] at all, so it is not [false]. *)
Lemma tasks_scenario_isHomeTab_is_not_false :
  ~ exists t,
      registrations
        (emitted (handleTab (imports := Sample.imports) Sample.tasksTab Sample.extension) 0)
      = [t]
      /\ IDashboardTab.provider t = JSString "MSSQL"
      /\ IDashboardTab.alwaysShow t = JSBool true
      /\ IDashboardTab.isHomeTab t = JSBool false.
Proof.
  intros (t & Hreg & _ & _ & Hhome).
  vm_compute in Hreg. injection Hreg as <-. discriminate Hhome.
Qed.

(** C5 (amended) on the scenario record with an empty widget list. *)
Lemma tasks_scenario_registers_once_witness :
  helperResult
    (validateWidgetContainerContribution (Imports := Sample.imports)
       Sample.extension (JSArray [])) 0 = true
  /\ exists iconClass,
      registrations
        (emitted (handleTab (imports := Sample.imports) (tasksScenario (JSArray []))
                            Sample.extension) 0)
      = [IDashboardTab.mk
           JSUndefined (JSString "Tasks") (JSObject [("widgets-container", JSArray [])])
           (JSString "MSSQL") JSUndefined JSUndefined (JSBool true) "contoso"
           JSUndefined JSUndefined iconClass].
Proof.
  split; [reflexivity |].
  exact (tasks_scenario_registers_once (imports := Sample.imports)
           (JSArray []) Sample.extension 0 eq_refl).
Defined.

(** The whole run of the scenario: the description warning, then the
    registration. *)
Example tasks_scenario_run :
  emitted (handleTab (imports := Sample.imports) (tasksScenario (JSArray []))
                     Sample.extension) 0
  = [Collect Sample.contoso
             {| severity := SevWarning; message := "No description specified to show." |};
     RegisterTab
       (IDashboardTab.mk
          JSUndefined (JSString "Tasks") (JSObject [("widgets-container", JSArray [])])
          (JSString "MSSQL") JSUndefined JSUndefined (JSBool true) "contoso"
          JSUndefined JSUndefined None)].
Proof. vm_compute. reflexivity. Qed.

(** C7 on a record whose icon is the number 42. *)
Lemma icon_failure_still_registers_witness :
  accepted (imports := Sample.imports) Sample.numberIconTab Sample.extension 0 = true
  /\ helperResult (Sample.isValidIcon (JSNumber 42) Sample.extension) 0 = false
  /\ exists t,
      registrations
        (emitted (handleTab (imports := Sample.imports)
                            Sample.numberIconTab Sample.extension) 0) = [t]
      /\ IDashboardTab.title t = JSString "Numbered"
      /\ IDashboardTab.iconClass t = None.
Proof.
  split; [reflexivity |]. split; [reflexivity |].
  destruct (icon_failure_still_registers (imports := Sample.imports)
              Sample.numberIconTab Sample.extension 0 eq_refl)
    as (t & Hreg & Hfrom & _ & Hnone).
  exists t. split; [exact Hreg |]. split; [apply Hfrom | apply Hnone; reflexivity].
Defined.

(** C7 on a record with a [{light, dark}] icon. *)
Example themed_icon_gets_a_class :
  emitted (handleTab (imports := Sample.imports) Sample.themedIconTab Sample.extension) 0
  = [RegisterTab
       (IDashboardTab.mk (JSString "A tab with an icon") (JSString "Themed")
          (JSObject [("widgets-container", JSArray [])]) (JSString "MSSQL")
          JSUndefined JSUndefined (JSBool true) "contoso" JSUndefined JSUndefined
          (Some "dashboard-icon-0"))].
Proof. vm_compute. reflexivity. Qed.



(** The figures of that run. *)
Example silent_rejections_run :
  rejectedCount (imports := Silent.imports) (contributions Silent.extensions) 0 = 2
  /\ registrations
       (emitted (setHandler (imports := Silent.imports) Silent.extensions) 0) = []
  /\ diagnostics
       (emitted (setHandler (imports := Silent.imports) Silent.extensions) 0) = [].
Proof. repeat split; vm_compute; reflexivity. Qed.

(** The registrations of that batch, by title, in input order. *)
Example batch_registration_order :
  map IDashboardTab.title
      (registrations (emitted (setHandler (imports := Sample.imports) Sample.extensions) 0))
  = [JSString "Tasks"; JSString "Numbered"; JSString "Themed"; JSString "Home"].
Proof. vm_compute. reflexivity. Qed.

(** ** Further properties of the handler *)

Section FurtherProperties.

Context {imports : Imports}.

Implicit Types (tab : IDashboardTabContrib.t) (extension : IExtensionPointUser.t).
Implicit Types (h : HostState).

Lemma descriptionWarning_Collect tab extension :
  exists ms,
    descriptionWarning tab extension
    = map (Collect (IExtensionPointUser.description extension)) ms.
Proof.
  unfold descriptionWarning. destruct (truthy (IDashboardTabContrib.description tab)).
  - exists []. reflexivity.
  - eexists [_]. reflexivity.
Qed.

(** The calls of one record: messages for the collector of its extension,
    then the registration if the record is accepted. *)
Lemma handleTab_shape tab extension h :
  exists ms,
    emitted (handleTab tab extension) h
    = map (Collect (IExtensionPointUser.description extension)) ms
      ++ (if accepted tab extension h
          then [RegisterTab
                  (registeredTab tab extension
                     (returned (resolveIcon extension (IDashboardTabContrib.icon tab))
                        (after (validateContainer extension (containerkey tab)
                                                  (containerValue tab)) h)))]
          else []).
Proof.
  unfold accepted, containerVerdict. destruct (structurallyValid tab) eqn:Hs.
  - unfold emitted at 1. rewrite (handleTab_checked _ _ _ Hs). cbv zeta. simpl fst. simpl snd.
    destruct (descriptionWarning_Collect tab extension) as [m1 ->].
    destruct (validateContainer_emits extension (containerkey tab) (containerValue tab) h)
      as [m2 ->].
    destruct (resolveIcon_emits extension (IDashboardTabContrib.icon tab)
                (after (validateContainer extension (containerkey tab) (containerValue tab)) h))
      as [m3 ->].
    exists (m1 ++ m2 ++ m3). rewrite !map_app, <- !app_assoc. simpl andb. reflexivity.
  - destruct (handleTab_structurally_invalid tab extension h Hs) as [msg Hrun].
    unfold emitted. rewrite Hrun. simpl fst. simpl snd. simpl andb. cbv iota.
    destruct (descriptionWarning_Collect tab extension) as [m1 Hm1].
    exists ((if truthy (IDashboardTabContrib.title tab) then m1 else [])
            ++ [{| severity := SevError; message := msg |}]).
    rewrite app_nil_r, map_app. unfold errorCall. simpl.
    destruct (truthy (IDashboardTabContrib.title tab)); [rewrite Hm1 |]; reflexivity.
Qed.

(** X1.  A record with a title and no container registers nothing and costs
    exactly one error, the missing-container error, after the description
    warning if the description is missing too; no helper runs. *)
Theorem missing_container_is_rejected tab extension h :
  truthy (IDashboardTabContrib.title tab) = true ->
  truthy (IDashboardTabContrib.container tab) = false ->
  emitted (handleTab tab extension) h
  = descriptionWarning tab extension ++ [errorCall extension noContainerError]
  /\ registrations (emitted (handleTab tab extension) h) = []
  /\ errors (emitted (handleTab tab extension) h)
     = [{| severity := SevError; message := noContainerError |}]
  /\ after (handleTab tab extension) h = h.
Proof.
  intros Ht Hc. unfold emitted, after.
  rewrite (handleTab_no_container _ _ _ Ht Hc). simpl fst. simpl snd.
  rewrite registrations_app, errors_app, registrations_descriptionWarning,
    errors_descriptionWarning.
  repeat split; reflexivity.
Qed.

Lemma resolveIcon_after extension icon h :
  after (resolveIcon extension icon) h
  = if helperResult (isValidIcon icon extension) h
    then helperState (createCSSRuleForIcon icon extension)
                     (helperState (isValidIcon icon extension) h)
    else helperState (isValidIcon icon extension) h.
Proof.
  unfold resolveIcon, after, bind. rewrite invoke_run.
  destruct (helperResult (isValidIcon icon extension) h); [| reflexivity].
  rewrite invoke_run. reflexivity.
Qed.

(** X2.  A record that passes the title, presence and arity checks and is
    refused by its container validator is not registered, but its icon is
    resolved all the same: the icon validator runs and reports, and when it
    accepts the icon the CSS rule is created, for a tab that will not
    exist. *)
Theorem refused_record_still_resolves_its_icon tab extension h :
  structurallyValid tab = true ->
  containerVerdict tab extension h = false ->
  let validation := validateContainer extension (containerkey tab) (containerValue tab) in
  let h1 := after validation h in
  let icon := IDashboardTabContrib.icon tab in
  registrations (emitted (handleTab tab extension) h) = []
  /\ emitted (handleTab tab extension) h
     = descriptionWarning tab extension
       ++ emitted validation h
       ++ emitted (resolveIcon extension icon) h1
  /\ after (handleTab tab extension) h
     = if helperResult (isValidIcon icon extension) h1
       then helperState (createCSSRuleForIcon icon extension)
                        (helperState (isValidIcon icon extension) h1)
       else helperState (isValidIcon icon extension) h1.
Proof.
  intros Hs Hv validation h1 icon.
  split.
  - rewrite handleTab_registrations. unfold accepted. rewrite Hs, Hv. reflexivity.
  - unfold containerVerdict in Hv. fold validation in Hv.
    unfold emitted at 1, after at 1. rewrite (handleTab_checked _ _ _ Hs). cbv zeta.
    fold validation. fold h1. fold icon. simpl fst. simpl snd.
    rewrite Hv, app_nil_r, resolveIcon_after. split; reflexivity.
Qed.

(** X3.  One record makes the handler talk to the collector of the
    record's own extension and to the tab registry only; it registers at
    most one tab, and the registration, when there is one, is the last
    call. *)
Theorem handleTab_registers_last_and_once tab extension h :
  (forall c, In c (emitted (handleTab tab extension) h) ->
             (exists m, c = Collect (IExtensionPointUser.description extension) m)
             \/ (exists t, c = RegisterTab t))
  /\ List.length (registrations (emitted (handleTab tab extension) h)) <= 1
  /\ (forall t, In (RegisterTab t) (emitted (handleTab tab extension) h) ->
                exists before,
                  emitted (handleTab tab extension) h = before ++ [RegisterTab t]
                  /\ registrations before = []).
Proof.
  destruct (handleTab_shape tab extension h) as [ms Hshape].
  split; [| split].
  - intros c Hc. rewrite Hshape in Hc. apply in_app_or in Hc as [Hc | Hc].
    + apply in_map_iff in Hc as (m & <- & _). left. now exists m.
    + destruct (accepted tab extension h); [| contradiction].
      destruct Hc as [<- | []]. right. eexists; reflexivity.
  - rewrite handleTab_registrations. destruct (accepted tab extension h); simpl; lia.
  - intros t Ht. rewrite Hshape in Ht |- *. apply in_app_or in Ht as [Ht | Ht].
    + apply in_map_iff in Ht as (m & Hm & _). discriminate Hm.
    + destruct (accepted tab extension h); [| contradiction].
      destruct Ht as [Ht | []]. rewrite Ht.
      eexists. split; [reflexivity | apply registrations_Collect].
Qed.

(** X4.  In a registered tab, a provider that is truthy (a name, or a list
    of names, even an empty list) is passed on as given, together with the
    record's [isHomeTab]; any falsy provider (absent, [null], [false], [0] or
    the empty string) is replaced by the default provider name, and
    [isHomeTab] by [false]. *)
Theorem provider_is_kept_or_defaulted tab extension h (t : IDashboardTab.t) :
  In t (registrations (emitted (handleTab tab extension) h)) ->
  (truthy (IDashboardTabContrib.provider tab) = true ->
   IDashboardTab.provider t = IDashboardTabContrib.provider tab
   /\ IDashboardTab.isHomeTab t = IDashboardTabContrib.isHomeTab tab)
  /\ (truthy (IDashboardTabContrib.provider tab) = false ->
      IDashboardTab.provider t = JSString mssqlProviderName
      /\ IDashboardTab.isHomeTab t = JSBool false).
Proof.
  intros Hin. apply registered_is_registeredTab in Hin as [_ [iconClass ->]].
  unfold registeredTab. simpl. split; intros ->; split; reflexivity.
Qed.

(** X5.  A container that is not a mapping is judged by its keys like any
    other value: a list of exactly one element has the single key ["0"],
    which is no known kind, so the record is registered without any
    validator being run; a non-zero number or [true] has no key, so the
    record is refused with the arity error. *)
Theorem container_that_is_not_a_mapping tab extension h :
  truthy (IDashboardTabContrib.title tab) = true ->
  (forall x,
      IDashboardTabContrib.container tab = JSArray [x] ->
      containerkey tab = Some "0" /\ containerValue tab = x
      /\ validateContainer extension (containerkey tab) (containerValue tab) h = (true, [], h)
      /\ registrations (emitted (handleTab tab extension) h)
         = [registeredTab tab extension
              (returned (resolveIcon extension (IDashboardTabContrib.icon tab)) h)])
  /\ (truthy (IDashboardTabContrib.container tab) = true ->
      (forall props, IDashboardTabContrib.container tab <> JSObject props) ->
      (forall items, IDashboardTabContrib.container tab <> JSArray items) ->
      (forall s, IDashboardTabContrib.container tab <> JSString s) ->
      emitted (handleTab tab extension) h
      = descriptionWarning tab extension
        ++ [errorCall extension moreThanOneDashboardContainersError]).
Proof.
  intros Ht. split.
  - intros x Hc.
    assert (Hkey : containerkey tab = Some "0") by (unfold containerkey; now rewrite Hc).
    assert (Hval : containerValue tab = x) by (unfold containerValue; now rewrite Hc).
    assert (Hv : validateContainer extension (containerkey tab) (containerValue tab) h
                 = (true, [], h)).
    { rewrite Hkey. apply validateContainer_unknown; discriminate. }
    assert (Hs : structurallyValid tab = true).
    { unfold structurallyValid. rewrite Ht, Hc. reflexivity. }
    repeat split; try assumption.
    rewrite handleTab_registrations. unfold accepted, containerVerdict, returned, after.
    rewrite Hs, Hv. reflexivity.
  - intros Hc Hobj Harr Hstr. unfold emitted.
    rewrite handleTab_bad_arity; [reflexivity | assumption | assumption |].
    destruct (IDashboardTabContrib.container tab) as [| | b | n | s | items | props];
      try reflexivity.
    + now destruct (Hstr s).
    + now destruct (Harr items).
    + now destruct (Hobj props).
Qed.

(** The extension of a record of [contributions] is one of the batch. *)
Lemma in_contributions (extensions : list IExtensionPointUser.t) extension tab :
  In (extension, tab) (contributions extensions) -> In extension extensions.
Proof.
  unfold contributions. rewrite in_flat_map. intros (e & He & Hin).
  destruct (IExtensionPointUser.value e) as [t | tabs].
  - destruct Hin as [[= <- _] | []]. exact He.
  - apply in_map_iff in Hin as (t & [= <- _] & _). exact He.
Qed.

Lemma forEach_handleRecord_calls records h (c : SinkCall) :
  In c (emitted (forEach handleRecord records) h) ->
  exists extension tab h',
    In (extension, tab) records /\ In c (emitted (handleTab tab extension) h').
Proof.
  revert h. induction records as [| [extension tab] records IH]; intros h Hc.
  - contradiction.
  - rewrite emitted_forEach_cons in Hc. apply in_app_or in Hc as [Hc | Hc].
    + exists extension, tab, h. split; [now left | exact Hc].
    + destruct (IH _ Hc) as (e & t & h' & Hin & Hc'). exists e, t, h'.
      split; [now right | exact Hc'].
Qed.

(** X6.  Whatever the batch, the handler only ever reports to the
    collectors of the extensions of the batch, and every tab it registers
    bears the publisher of one of them; it registers no tab group. *)
Theorem setHandler_stays_within_the_batch (extensions : list IExtensionPointUser.t) h
        (c : SinkCall) :
  In c (emitted (setHandler extensions) h) ->
  exists extension,
    In extension extensions
    /\ ((exists m, c = Collect (IExtensionPointUser.description extension) m)
        \/ (exists t,
               c = RegisterTab t
               /\ IDashboardTab.publisher t
                  = IExtensionDescription.publisher
                      (IExtensionPointUser.description extension))).
Proof.
  intros Hc. destruct (setHandler_contributions extensions h) as [Hrun _].
  rewrite Hrun in Hc.
  apply forEach_handleRecord_calls in Hc as (extension & tab & h' & Hin & Hc).
  exists extension. split; [now apply in_contributions in Hin |].
  destruct (handleTab_shape tab extension h') as [ms Hshape]. rewrite Hshape in Hc.
  apply in_app_or in Hc as [Hc | Hc].
  - apply in_map_iff in Hc as (m & <- & _). left. now exists m.
  - destruct (accepted tab extension h'); [| contradiction].
    destruct Hc as [<- | []]. right. eexists. split; reflexivity.
Qed.

(** X24.  For a record with a title whose container has one of the three
    known kinds as its single key, the validator of that kind, and no other,
    is run on the value under the key; its messages go to the collector, and
    a tab is registered exactly when it returns [true]. *)
Theorem known_kind_is_decided_by_its_validator tab extension h (v : JSValue) :
  truthy (IDashboardTabContrib.title tab) = true ->
  let decidedBy (validate : IExtensionPointUser.t -> JSValue -> Helper HostState bool) :=
    emitted (validateContainer extension (containerkey tab) (containerValue tab)) h
    = map (Collect (IExtensionPointUser.description extension))
          (helperMessages (validate extension v) h)
    /\ after (validateContainer extension (containerkey tab) (containerValue tab)) h
       = helperState (validate extension v) h
    /\ (registrations (emitted (handleTab tab extension) h) <> []
        <-> helperResult (validate extension v) h = true) in
  (IDashboardTabContrib.container tab = JSObject [(WIDGETS_CONTAINER, v)] ->
   decidedBy validateWidgetContainerContribution)
  /\ (IDashboardTabContrib.container tab = JSObject [(GRID_CONTAINER, v)] ->
      decidedBy validateGridContainerContribution)
  /\ (IDashboardTabContrib.container tab = JSObject [(NAV_SECTION, v)] ->
      decidedBy validateNavSectionContributionAndRegisterIcon).
Proof.
  intros Ht decidedBy.
  assert (Hgen : forall k validate,
             IDashboardTabContrib.container tab = JSObject [(k, v)] ->
             validateContainer extension (Some k) v h = invoke extension (validate extension v) h ->
             decidedBy validate).
  { intros k validate Hc Hv. unfold decidedBy.
    assert (Hkey : containerkey tab = Some k) by (unfold containerkey; now rewrite Hc).
    assert (Hval : containerValue tab = v) by (unfold containerValue; now rewrite Hc).
    assert (Hs : structurallyValid tab = true)
      by (unfold structurallyValid; rewrite Ht, Hc; reflexivity).
    rewrite handleTab_registrations. unfold accepted, containerVerdict, emitted, returned, after.
    rewrite Hs, Hkey, Hval, Hv, invoke_run. simpl.
    split; [reflexivity |]. split; [reflexivity |].
    destruct (helperResult (validate extension v) h); split;
      try discriminate; try reflexivity; intros H; now contradiction H. }
  split; [| split]; intros Hc; apply (Hgen _ _ Hc); reflexivity.
Qed.

End FurtherProperties.

(** ** The tab panel: arrays *)

Lemma firstIndexFrom_none {A : Type} (fn : A -> bool) (array : list A) (i : Z) :
  (forall x, In x array -> fn x = false) -> firstIndexFrom fn array i = (-1)%Z.
Proof.
  revert i. induction array as [| x rest IH]; intros i Hall; simpl; [reflexivity |].
  rewrite (Hall x (or_introl eq_refl)). apply IH. intros y Hy. apply Hall. now right.
Qed.

Lemma firstIndexFrom_found {A : Type} (fn : A -> bool) (l1 l2 : list A) (x : A) (i : Z) :
  (forall y, In y l1 -> fn y = false) -> fn x = true ->
  firstIndexFrom fn (l1 ++ x :: l2) i = (i + Z.of_nat (List.length l1))%Z.
Proof.
  revert i. induction l1 as [| y l1 IH]; intros i Hall Hx; simpl.
  - rewrite Hx. lia.
  - rewrite (Hall y (or_introl eq_refl)). rewrite IH; [lia | | exact Hx].
    intros z Hz. apply Hall. now right.
Qed.

Lemma firstIndex_cases {A : Type} (fn : A -> bool) (array : list A) :
  (firstIndex array fn = (-1)%Z /\ forall x, In x array -> fn x = false)
  \/ exists l1 x l2,
      array = l1 ++ x :: l2
      /\ (forall y, In y l1 -> fn y = false)
      /\ fn x = true
      /\ firstIndex array fn = Z.of_nat (List.length l1).
Proof.
  unfold firstIndex. induction array as [| x rest IH].
  - left. split; [reflexivity | intros x []].
  - destruct (fn x) eqn:Hx.
    + right. exists [], x, rest. simpl. rewrite Hx.
      split; [reflexivity |]. split; [intros y [] |]. split; reflexivity.
    + destruct IH as [[Hnone Hall] | (l1 & y & l2 & Heq & Hall & Hy & Hidx)].
      * left. split.
        -- apply firstIndexFrom_none. intros z [<- | Hz]; [exact Hx | now apply Hall].
        -- intros z [<- | Hz]; [exact Hx | now apply Hall].
      * right. exists (x :: l1), y, l2. subst rest. repeat split.
        -- intros z [<- | Hz]; [exact Hx | now apply Hall].
        -- exact Hy.
        -- change (firstIndexFrom fn ((x :: l1) ++ y :: l2) 0
                   = Z.of_nat (List.length (x :: l1))).
           rewrite firstIndexFrom_found; [lia | | exact Hy].
           intros z [<- | Hz]; [exact Hx | now apply Hall].
Qed.

Lemma spliceOne_middle {A : Type} (l1 l2 : list A) (x : A) :
  spliceOne (List.length l1) (l1 ++ x :: l2) = l1 ++ l2.
Proof.
  induction l1 as [| y l1 IH]; simpl; [reflexivity | now rewrite IH].
Qed.

Lemma sameTab_true (tab i : TabRef) : sameTab tab i = true <-> i = tab.
Proof. unfold sameTab. apply Nat.eqb_eq. Qed.

Lemma sameTab_false (tab i : TabRef) : sameTab tab i = false <-> i <> tab.
Proof. unfold sameTab. apply Nat.eqb_neq. Qed.

(** ** The tab panel: most recently used tabs *)

Lemma findAndRemoveTabFromMRU_absent (tab : TabRef) (p : PanelComponent) :
  ~ In tab (_mru p) -> findAndRemoveTabFromMRU tab p = p.
Proof.
  intros Hnot. unfold findAndRemoveTabFromMRU, firstIndex.
  rewrite firstIndexFrom_none; [reflexivity |].
  intros x Hx. apply sameTab_false. intros ->. contradiction.
Qed.

Lemma findAndRemoveTabFromMRU_present (tab : TabRef) (p : PanelComponent)
      (l1 l2 : list TabRef) :
  _mru p = l1 ++ tab :: l2 -> ~ In tab l1 ->
  findAndRemoveTabFromMRU tab p = setMru (l1 ++ l2) p.
Proof.
  intros Hmru Hnot. unfold findAndRemoveTabFromMRU, firstIndex. rewrite Hmru.
  rewrite firstIndexFrom_found.
  - replace (negb (0 + Z.of_nat (List.length l1) =? -1)%Z) with true
      by (symmetry; apply negb_true_iff, Z.eqb_neq; lia).
    simpl Z.add. rewrite Nat2Z.id, spliceOne_middle. reflexivity.
  - intros y Hy. apply sameTab_false. intros ->. contradiction.
  - now apply sameTab_true.
Qed.

Lemma filter_other_absent (tab : TabRef) (l : list TabRef) :
  ~ In tab l -> filter (fun i => negb (Nat.eqb i tab)) l = l.
Proof.
  induction l as [| x l IH]; intros Hnot; simpl; [reflexivity |].
  destruct (Nat.eqb_spec x tab) as [-> | Hne]; simpl.
  - exfalso. apply Hnot. now left.
  - rewrite IH; [reflexivity |]. intros Hin. apply Hnot. now right.
Qed.

Lemma filter_other_head (tab : TabRef) (l : list TabRef) :
  filter (fun i => negb (Nat.eqb i tab)) (tab :: l) = filter (fun i => negb (Nat.eqb i tab)) l.
Proof.
  simpl. rewrite Nat.eqb_refl. reflexivity.
Qed.

(** The list left by [findAndRemoveTabFromMRU] when the list it finds holds
    no tab twice. *)
Lemma findAndRemoveTabFromMRU_mru (tab : TabRef) (p : PanelComponent) :
  NoDup (_mru p) ->
  _mru (findAndRemoveTabFromMRU tab p) = filter (fun i => negb (Nat.eqb i tab)) (_mru p).
Proof.
  intros Hnd. destruct (in_dec Nat.eq_dec tab (_mru p)) as [Hin | Hnot].
  - apply in_split in Hin as (l1 & l2 & Hmru).
    rewrite Hmru in Hnd. apply NoDup_remove in Hnd as [_ Hnot].
    assert (H1 : ~ In tab l1) by (intros H; apply Hnot, in_or_app; now left).
    assert (H2 : ~ In tab l2) by (intros H; apply Hnot, in_or_app; now right).
    rewrite (findAndRemoveTabFromMRU_present tab p l1 l2 Hmru H1), Hmru. simpl.
    rewrite filter_app. simpl. rewrite Nat.eqb_refl. simpl.
    now rewrite !filter_other_absent.
  - rewrite findAndRemoveTabFromMRU_absent by assumption.
    now rewrite filter_other_absent.
Qed.

Lemma NoDup_filter_other (tab : TabRef) (l : list TabRef) :
  NoDup l -> NoDup (tab :: filter (fun i => negb (Nat.eqb i tab)) l).
Proof.
  intros Hnd. constructor.
  - rewrite filter_In. intros [_ H]. rewrite Nat.eqb_refl in H. discriminate.
  - apply NoDup_filter. exact Hnd.
Qed.

(** X8.  [findAndRemoveTabFromMRU] deletes the first occurrence of the tab
    from the most-recently-used list and touches nothing else; when the tab is
    not in the list the component is left as it is. *)
Theorem findAndRemoveTabFromMRU_removes_first_occurrence (tab : TabRef) (p : PanelComponent) :
  (~ In tab (_mru p) -> findAndRemoveTabFromMRU tab p = p)
  /\ (forall l1 l2,
         _mru p = l1 ++ tab :: l2 -> ~ In tab l1 ->
         findAndRemoveTabFromMRU tab p
         = mkPanel (_tabs p) (identifierOf p) (_activeTab p) (l1 ++ l2) (idPool p)
                   (panelCalls p)).
Proof.
  split.
  - apply findAndRemoveTabFromMRU_absent.
  - intros l1 l2 Hmru Hnot. apply findAndRemoveTabFromMRU_present; assumption.
Qed.

(** X9.  [setMostRecentlyUsed] moves the tab to the front of the
    most-recently-used list: on a list without repetition the result is the
    tab followed by the other tabs in their former order, and it has no
    repetition either. *)
Theorem setMostRecentlyUsed_moves_to_front (tab : TabRef) (p : PanelComponent) :
  NoDup (_mru p) ->
  _mru (setMostRecentlyUsed tab p) = tab :: filter (fun i => negb (Nat.eqb i tab)) (_mru p)
  /\ NoDup (_mru (setMostRecentlyUsed tab p)).
Proof.
  intros Hnd.
  assert (Heq : _mru (setMostRecentlyUsed tab p)
                = tab :: filter (fun i => negb (Nat.eqb i tab)) (_mru p)).
  { unfold setMostRecentlyUsed. simpl. now rewrite findAndRemoveTabFromMRU_mru. }
  split; [exact Heq |]. rewrite Heq. now apply NoDup_filter_other.
Qed.

(** ** The tab panel: selection *)

Lemma ensureIdentifiers_fields (p : PanelComponent) :
  _tabs (ensureIdentifiers p) = _tabs p
  /\ _activeTab (ensureIdentifiers p) = _activeTab p
  /\ _mru (ensureIdentifiers p) = _mru p
  /\ panelCalls (ensureIdentifiers p) = panelCalls p
  /\ identifierOf (ensureIdentifiers p)
     = fst (assignIdentifiers (_tabs p) (identifierOf p) (idPool p))
  /\ idPool (ensureIdentifiers p)
     = snd (assignIdentifiers (_tabs p) (identifierOf p) (idPool p)).
Proof.
  unfold ensureIdentifiers.
  destruct (assignIdentifiers (_tabs p) (identifierOf p) (idPool p)) as [ids pool].
  repeat split.
Qed.

Lemma isActiveTab_true (p : PanelComponent) (i : TabRef) :
  isActiveTab p i = true <-> _activeTab p = Some i.
Proof.
  unfold isActiveTab. destruct (_activeTab p) as [a |].
  - rewrite Nat.eqb_eq. split; [now intros -> | now intros [= ->]].
  - split; discriminate.
Qed.

Lemma isActiveTab_ensureIdentifiers (p : PanelComponent) (i : TabRef) :
  isActiveTab (ensureIdentifiers p) i = isActiveTab p i.
Proof.
  unfold isActiveTab.
  destruct (ensureIdentifiers_fields p) as (_ & -> & _). reflexivity.
Qed.

Lemma selectTab_found (input : SelectInput) (p : PanelComponent) (tab : TabRef) :
  _tabs p <> [] -> findTab input p = Some tab ->
  selectTab input p
  = if isActiveTab p tab
    then emitCall (EmitTabChange tab) (ensureIdentifiers p)
    else activate tab (ensureIdentifiers p).
Proof.
  intros Hne Hfind. unfold selectTab. rewrite Hfind.
  destruct (_tabs p) as [| x rest]; [contradiction |]. simpl Nat.ltb. cbv iota.
  rewrite isActiveTab_ensureIdentifiers. reflexivity.
Qed.

Lemma arrayGet_some {A : Type} (array : list A) (i : Z) (x : A) :
  arrayGet array i = Some x -> (0 <= i < Z.of_nat (List.length array))%Z.
Proof.
  unfold arrayGet. destruct (Z.ltb_spec i 0) as [Hneg | Hpos]; [discriminate |].
  intros H. assert (Hlt : Z.to_nat i < List.length array)
    by (apply nth_error_Some; rewrite H; discriminate).
  lia.
Qed.

(** X10.  [selectTab] leaves the component exactly as it is, and calls
    nothing, when the panel has no tab, when the index is not an index of the
    tab list, and when no tab carries the identifier. *)
Theorem selectTab_without_target_does_nothing (p : PanelComponent) :
  (forall input, _tabs p = [] -> selectTab input p = p)
  /\ (forall index,
         (index < 0 \/ Z.of_nat (List.length (_tabs p)) <= index)%Z ->
         selectTab (ByIndex index) p = p)
  /\ (forall identifier,
         (forall i, In i (_tabs p) -> identifierOf p i <> Some identifier) ->
         selectTab (ByIdentifier identifier) p = p).
Proof.
  split; [| split].
  - intros input Hnil. unfold selectTab. rewrite Hnil. reflexivity.
  - intros index Hout. unfold selectTab.
    destruct (findTab (ByIndex index) p) as [tab |] eqn:Hfind.
    + simpl in Hfind. apply arrayGet_some in Hfind. lia.
    + destruct (Nat.ltb 0 (List.length (_tabs p))); reflexivity.
  - intros identifier Hnone. unfold selectTab.
    destruct (findTab (ByIdentifier identifier) p) as [tab |] eqn:Hfind.
    + simpl in Hfind. apply find_some in Hfind as [Hin Hid].
      unfold hasIdentifier in Hid. specialize (Hnone tab Hin).
      destruct (identifierOf p tab) as [s |]; [| discriminate].
      apply String.eqb_eq in Hid. subst s. contradiction.
    + destruct (Nat.ltb 0 (List.length (_tabs p))); reflexivity.
Qed.

Lemma activate_fields (tab : TabRef) (p : PanelComponent) :
  _tabs (activate tab p) = _tabs p
  /\ identifierOf (activate tab p) = identifierOf p
  /\ idPool (activate tab p) = idPool p
  /\ _activeTab (activate tab p) = Some tab
  /\ _mru (activate tab p) = _mru (setMostRecentlyUsed tab p)
  /\ panelCalls (activate tab p)
     = panelCalls p
       ++ match _activeTab p with
          | Some active => [SetActive active false]
          | None => []
          end
       ++ [SetActive tab true; EmitTabChange tab].
Proof.
  unfold activate, setMostRecentlyUsed, findAndRemoveTabFromMRU.
  destruct (_activeTab p) as [a |]; simpl;
    destruct (negb (firstIndex (_mru p) (sameTab tab) =? -1)%Z); simpl;
    rewrite <- ?app_assoc; repeat split.
Qed.

(** X11.  Selecting a tab that is found and is not the active one: the former
    active tab, if any, is told [active = false], the tab becomes the active
    one and the head of the most-recently-used list, is told [active = true],
    and [onTabChange] is emitted once, in that order. *)
Theorem selectTab_activates_the_tab (input : SelectInput) (p : PanelComponent) (tab : TabRef) :
  _tabs p <> [] ->
  findTab input p = Some tab ->
  _activeTab p <> Some tab ->
  NoDup (_mru p) ->
  _activeTab (selectTab input p) = Some tab
  /\ _mru (selectTab input p) = tab :: filter (fun i => negb (Nat.eqb i tab)) (_mru p)
  /\ panelCalls (selectTab input p)
     = panelCalls p
       ++ match _activeTab p with
          | Some active => [SetActive active false]
          | None => []
          end
       ++ [SetActive tab true; EmitTabChange tab]
  /\ _tabs (selectTab input p) = _tabs p.
Proof.
  intros Hne Hfind Hother Hnd.
  rewrite (selectTab_found input p tab Hne Hfind).
  destruct (isActiveTab p tab) eqn:Hact; [apply isActiveTab_true in Hact; contradiction |].
  destruct (activate_fields tab (ensureIdentifiers p)) as (Ht & _ & _ & Ha & Hm & Hc).
  destruct (ensureIdentifiers_fields p) as (Ht' & Ha' & Hm' & Hc' & _).
  rewrite Ha, Hm, Hc, Ht, Ht', Ha', Hc'.
  split; [reflexivity |]. split; [| split; reflexivity].
  unfold setMostRecentlyUsed. simpl.
  rewrite findAndRemoveTabFromMRU_mru; rewrite Hm'; [reflexivity | exact Hnd].
Qed.

(** X12.  Selecting the tab that is already active changes neither the
    active tab nor the most-recently-used list, and no tab is told anything
    about [active].  On a panel that has tabs [onTabChange] is emitted once
    more; on a panel whose tab list is empty nothing is emitted at all. *)
Theorem selectTab_on_the_active_tab_only_emits (input : SelectInput) (p : PanelComponent)
        (tab : TabRef) :
  findTab input p = Some tab ->
  _activeTab p = Some tab ->
  _activeTab (selectTab input p) = Some tab
  /\ _mru (selectTab input p) = _mru p
  /\ panelCalls (selectTab input p)
     = panelCalls p
       ++ match _tabs p with
          | [] => []
          | _ :: _ => [EmitTabChange tab]
          end.
Proof.
  intros Hfind Hact. destruct (_tabs p) as [| first others] eqn:Htabs.
  - assert (Hsame : selectTab input p = p)
      by (unfold selectTab; rewrite Htabs; reflexivity).
    rewrite Hsame, app_nil_r. repeat split. exact Hact.
  - assert (Hne : _tabs p <> []) by (rewrite Htabs; discriminate).
    rewrite (selectTab_found input p tab Hne Hfind).
    apply isActiveTab_true in Hact as Hact'. rewrite Hact'.
    destruct (ensureIdentifiers_fields p) as (_ & Ha & Hm & Hc & _).
    simpl. rewrite Ha, Hm, Hc. repeat split. exact Hact.
Qed.

(** ** The tab panel: identifiers *)

Lemma indexKey_inj (n m : nat) : indexKey n = indexKey m -> n = m.
Proof.
  unfold indexKey. intros H.
  apply (f_equal NilEmpty.uint_of_string) in H. rewrite !NilEmpty.usu in H.
  injection H as H. now apply Unsigned.to_uint_inj.
Qed.

Lemma tabIndexIdentifier_inj (n m : nat) :
  tabIndexIdentifier n = tabIndexIdentifier m -> n = m.
Proof.
  unfold tabIndexIdentifier. simpl. intros H. injection H as H. now apply indexKey_inj.
Qed.

Lemma tabIndexIdentifier_not_empty (n : nat) :
  lacksIdentifier (Some (tabIndexIdentifier n)) = false.
Proof. reflexivity. Qed.

Lemma assignIdentifiers_kept (tabs : list TabRef) (ids : TabRef -> option string)
      (pool : nat) (i : TabRef) :
  lacksIdentifier (ids i) = false ->
  fst (assignIdentifiers tabs ids pool) i = ids i.
Proof.
  revert ids pool. induction tabs as [| x rest IH]; intros ids pool Hi; simpl; [reflexivity |].
  destruct (lacksIdentifier (ids x)) eqn:Hx; [| now apply IH].
  rewrite IH.
  - unfold setIdentifier. destruct (Nat.eqb_spec i x) as [-> | _]; [congruence | reflexivity].
  - unfold setIdentifier. destruct (Nat.eqb i x); [reflexivity | exact Hi].
Qed.

Lemma assignIdentifiers_outside (tabs : list TabRef) (ids : TabRef -> option string)
      (pool : nat) (i : TabRef) :
  ~ In i tabs -> fst (assignIdentifiers tabs ids pool) i = ids i.
Proof.
  revert ids pool. induction tabs as [| x rest IH]; intros ids pool Hi; simpl; [reflexivity |].
  assert (Hx : i <> x) by (intros ->; apply Hi; now left).
  assert (Hrest : ~ In i rest) by (intros H; apply Hi; now right).
  destruct (lacksIdentifier (ids x)); rewrite IH by assumption; [| reflexivity].
  unfold setIdentifier. now apply Nat.eqb_neq in Hx as ->.
Qed.

Lemma assignIdentifiers_all (tabs : list TabRef) (ids : TabRef -> option string)
      (pool : nat) (i : TabRef) :
  In i tabs -> lacksIdentifier (fst (assignIdentifiers tabs ids pool) i) = false.
Proof.
  revert ids pool. induction tabs as [| x rest IH]; intros ids pool Hi; [contradiction |].
  simpl. destruct (lacksIdentifier (ids x)) eqn:Hx.
  - destruct (Nat.eq_dec i x) as [-> | Hne].
    + rewrite assignIdentifiers_kept; unfold setIdentifier; rewrite Nat.eqb_refl; reflexivity.
    + apply IH. destruct Hi as [-> | Hi]; [contradiction | exact Hi].
  - destruct (Nat.eq_dec i x) as [-> | Hne].
    + rewrite assignIdentifiers_kept; assumption.
    + apply IH. destruct Hi as [-> | Hi]; [contradiction | exact Hi].
Qed.

Lemma assignIdentifiers_pool_le (tabs : list TabRef) (ids : TabRef -> option string)
      (pool : nat) :
  pool <= snd (assignIdentifiers tabs ids pool).
Proof.
  revert ids pool. induction tabs as [| x rest IH]; intros ids pool; simpl; [lia |].
  destruct (lacksIdentifier (ids x)); [| apply IH].
  specialize (IH (setIdentifier ids x (tabIndexIdentifier pool)) (S pool)). lia.
Qed.

Lemma assignIdentifiers_generated (tabs : list TabRef) (ids : TabRef -> option string)
      (pool : nat) (i : TabRef) :
  In i tabs -> lacksIdentifier (ids i) = true ->
  exists k,
    pool <= k < snd (assignIdentifiers tabs ids pool)
    /\ fst (assignIdentifiers tabs ids pool) i = Some (tabIndexIdentifier k).
Proof.
  revert ids pool. induction tabs as [| x rest IH]; intros ids pool Hi Hlack; [contradiction |].
  simpl. destruct (lacksIdentifier (ids x)) eqn:Hx.
  - pose proof (assignIdentifiers_pool_le rest
                  (setIdentifier ids x (tabIndexIdentifier pool)) (S pool)) as Hle.
    destruct (Nat.eq_dec i x) as [-> | Hne].
    + exists pool. split; [lia |].
      rewrite assignIdentifiers_kept; unfold setIdentifier; rewrite Nat.eqb_refl; reflexivity.
    + destruct Hi as [-> | Hi]; [contradiction |].
      destruct (IH (setIdentifier ids x (tabIndexIdentifier pool)) (S pool) Hi)
        as (k & Hk & Hid).
      * unfold setIdentifier. now apply Nat.eqb_neq in Hne as ->.
      * exists k. split; [lia | exact Hid].
  - destruct Hi as [-> | Hi]; [congruence |]. now apply IH.
Qed.

Lemma assignIdentifiers_distinct (tabs : list TabRef) (ids : TabRef -> option string)
      (pool : nat) (i j : TabRef) :
  In i tabs -> In j tabs -> i <> j ->
  lacksIdentifier (ids i) = true -> lacksIdentifier (ids j) = true ->
  fst (assignIdentifiers tabs ids pool) i <> fst (assignIdentifiers tabs ids pool) j.
Proof.
  revert ids pool. induction tabs as [| x rest IH]; intros ids pool Hi Hj Hne Li Lj;
    [contradiction |].
  simpl. destruct (lacksIdentifier (ids x)) eqn:Hx.
  - set (ids1 := setIdentifier ids x (tabIndexIdentifier pool)).
    assert (Hhead : forall a b, a = x -> b <> x -> In b rest ->
                                lacksIdentifier (ids b) = true ->
                                fst (assignIdentifiers rest ids1 (S pool)) a
                                <> fst (assignIdentifiers rest ids1 (S pool)) b).
    { intros a b -> Hb Hin Lb.
      rewrite (assignIdentifiers_kept rest ids1 (S pool) x)
        by (unfold ids1, setIdentifier; rewrite Nat.eqb_refl; reflexivity).
      destruct (assignIdentifiers_generated rest ids1 (S pool) b Hin) as (k & Hk & ->).
      { unfold ids1, setIdentifier. now apply Nat.eqb_neq in Hb as ->. }
      unfold ids1 at 1, setIdentifier. rewrite Nat.eqb_refl.
      intros H.
      assert (H' : tabIndexIdentifier pool = tabIndexIdentifier k) by congruence.
      apply tabIndexIdentifier_inj in H'. lia. }
    destruct (Nat.eq_dec i x) as [Hix | Hix]; destruct (Nat.eq_dec j x) as [Hjx | Hjx].
    + congruence.
    + apply Hhead; try assumption. destruct Hj as [Hj | Hj]; [congruence | exact Hj].
    + intros H. symmetry in H. revert H. apply Hhead; try assumption.
      destruct Hi as [Hi | Hi]; [congruence | exact Hi].
    + apply IH; try assumption.
      * destruct Hi as [Hi | Hi]; [congruence | exact Hi].
      * destruct Hj as [Hj | Hj]; [congruence | exact Hj].
      * unfold ids1, setIdentifier. now apply Nat.eqb_neq in Hix as ->.
      * unfold ids1, setIdentifier. now apply Nat.eqb_neq in Hjx as ->.
  - apply IH; try assumption.
    + destruct Hi as [-> | Hi]; [congruence | exact Hi].
    + destruct Hj as [-> | Hj]; [congruence | exact Hj].
Qed.

Lemma selectTab_identifiers (input : SelectInput) (p : PanelComponent) (tab : TabRef) :
  _tabs p <> [] -> findTab input p = Some tab ->
  identifierOf (selectTab input p)
  = fst (assignIdentifiers (_tabs p) (identifierOf p) (idPool p))
  /\ idPool (selectTab input p)
     = snd (assignIdentifiers (_tabs p) (identifierOf p) (idPool p)).
Proof.
  intros Hne Hfind. rewrite (selectTab_found input p tab Hne Hfind).
  destruct (ensureIdentifiers_fields p) as (_ & _ & _ & _ & Hids & Hpool).
  destruct (activate_fields tab (ensureIdentifiers p)) as (_ & Hids' & Hpool' & _).
  destruct (isActiveTab p tab).
  - unfold emitCall. cbn [identifierOf idPool]. split; assumption.
  - rewrite Hids', Hpool'. split; assumption.
Qed.

(** X13.  After a selection that finds its tab, every tab of the panel has a
    non-empty identifier; an identifier that was there before is unchanged,
    for every tab component whether in the panel or not. *)
Theorem selectTab_gives_every_tab_an_identifier (input : SelectInput) (p : PanelComponent)
        (tab : TabRef) :
  _tabs p <> [] ->
  findTab input p = Some tab ->
  (forall i, In i (_tabs p) ->
             lacksIdentifier (identifierOf (selectTab input p) i) = false)
  /\ (forall i, lacksIdentifier (identifierOf p i) = false ->
                identifierOf (selectTab input p) i = identifierOf p i)
  /\ (forall i, ~ In i (_tabs p) ->
                identifierOf (selectTab input p) i = identifierOf p i).
Proof.
  intros Hne Hfind.
  destruct (selectTab_identifiers input p tab Hne Hfind) as [-> _].
  split; [| split]; intros i Hi.
  - now apply assignIdentifiers_all.
  - now apply assignIdentifiers_kept.
  - now apply assignIdentifiers_outside.
Qed.

(** X14.  The identifiers made up by a selection are ['tabIndex_' + k] for
    values [k] of the counter from its value before the selection up to, and
    not including, its value after; two different tabs that lacked an
    identifier never receive the same one; and the counter never goes
    down. *)
Theorem selectTab_makes_fresh_identifiers (input : SelectInput) (p : PanelComponent)
        (tab : TabRef) :
  _tabs p <> [] ->
  findTab input p = Some tab ->
  idPool p <= idPool (selectTab input p)
  /\ (forall i, In i (_tabs p) -> lacksIdentifier (identifierOf p i) = true ->
                exists k, idPool p <= k < idPool (selectTab input p)
                          /\ identifierOf (selectTab input p) i
                             = Some (tabIndexIdentifier k))
  /\ (forall i j, In i (_tabs p) -> In j (_tabs p) -> i <> j ->
                  lacksIdentifier (identifierOf p i) = true ->
                  lacksIdentifier (identifierOf p j) = true ->
                  identifierOf (selectTab input p) i <> identifierOf (selectTab input p) j).
Proof.
  intros Hne Hfind.
  destruct (selectTab_identifiers input p tab Hne Hfind) as [-> ->].
  split; [apply assignIdentifiers_pool_le |]. split.
  - intros i Hi Hlack. now apply assignIdentifiers_generated.
  - intros i j Hi Hj Hij Li Lj. now apply assignIdentifiers_distinct.
Qed.

Lemma selectTab_activeTab (input : SelectInput) (p : PanelComponent) (tab : TabRef) :
  _tabs p <> [] -> findTab input p = Some tab ->
  _activeTab (selectTab input p) = Some tab /\ _tabs (selectTab input p) = _tabs p.
Proof.
  intros Hne Hfind. rewrite (selectTab_found input p tab Hne Hfind).
  destruct (ensureIdentifiers_fields p) as (Ht & Ha & _).
  destruct (activate_fields tab (ensureIdentifiers p)) as (Ht' & _ & _ & Ha' & _).
  destruct (isActiveTab p tab) eqn:Hact.
  - apply isActiveTab_true in Hact. cbn [emitCall _activeTab _tabs].
    rewrite Ha, Ht. split; [exact Hact | reflexivity].
  - rewrite Ha', Ht', Ht. split; reflexivity.
Qed.

(** X23.  After the selection of a tab of the panel, [getActiveTab] yields a
    non-empty identifier, that of the selected tab; and when no other tab of
    the panel carries this identifier, selecting by it finds the same tab
    again. *)
Theorem getActiveTab_names_the_selected_tab (input : SelectInput) (p : PanelComponent)
        (tab : TabRef) :
  _tabs p <> [] ->
  findTab input p = Some tab ->
  In tab (_tabs p) ->
  exists s,
    getActiveTab (selectTab input p) = Some s
    /\ s <> ""
    /\ identifierOf (selectTab input p) tab = Some s
    /\ ((forall i, In i (_tabs p) -> identifierOf (selectTab input p) i = Some s -> i = tab) ->
        findTab (ByIdentifier s) (selectTab input p) = Some tab).
Proof.
  intros Hne Hfind Hin.
  destruct (selectTab_activeTab input p tab Hne Hfind) as [Hact Htabs].
  destruct (selectTab_identifiers input p tab Hne Hfind) as [Hids _].
  pose proof (assignIdentifiers_all (_tabs p) (identifierOf p) (idPool p) tab Hin) as Hhas.
  rewrite <- Hids in Hhas.
  destruct (identifierOf (selectTab input p) tab) as [s |] eqn:Hs; [| discriminate].
  exists s. unfold getActiveTab. rewrite Hact, Hs.
  split; [reflexivity |]. split; [| split; [reflexivity |]].
  - intros ->. discriminate.
  - intros Hunique. simpl. rewrite Htabs.
    destruct (find (hasIdentifier (selectTab input p) s) (_tabs p)) as [x |] eqn:Hx.
    + apply find_some in Hx as [Hxin Hxid]. f_equal. apply Hunique; [exact Hxin |].
      unfold hasIdentifier in Hxid.
      destruct (identifierOf (selectTab input p) x) as [sx |]; [| discriminate].
      apply String.eqb_eq in Hxid. now subst.
    + exfalso. pose proof (find_none _ _ Hx tab Hin) as Hno.
      unfold hasIdentifier in Hno. rewrite Hs, String.eqb_refl in Hno. discriminate.
Qed.

(** ** The tab panel: next tab and closing *)

Lemma selectTab_by_index (index : Z) (tab : TabRef) (p : PanelComponent) :
  arrayGet (_tabs p) index = Some tab ->
  selectTab (ByIndex index) p = selectTab (ByTab tab) p.
Proof.
  intros H. unfold selectTab. simpl findTab. rewrite H. reflexivity.
Qed.

Lemma isActiveTab_other (p : PanelComponent) (a : TabRef) (l : list TabRef) :
  _activeTab p = Some a -> ~ In a l -> forall y, In y l -> isActiveTab p y = false.
Proof.
  intros Hact Hnot y Hy. unfold isActiveTab. rewrite Hact.
  apply Nat.eqb_neq. intros ->. contradiction.
Qed.

(** X15.  [selectOnNextTab] selects the tab that follows the active tab in
    the tab list; from the last tab it goes round to the first; and when no
    tab of the list is active it selects the first tab (doing nothing on an
    empty list). *)
Theorem selectOnNextTab_goes_round (p : PanelComponent) :
  (forall l1 a b l2,
      _tabs p = l1 ++ a :: b :: l2 -> ~ In a l1 -> _activeTab p = Some a ->
      selectOnNextTab p = selectTab (ByTab b) p)
  /\ (forall l1 a,
         _tabs p = l1 ++ [a] -> ~ In a l1 -> _activeTab p = Some a ->
         selectOnNextTab p = selectFirstTab p)
  /\ ((forall i, In i (_tabs p) -> _activeTab p <> Some i) ->
      selectOnNextTab p = selectFirstTab p).
Proof.
  split; [| split].
  - intros l1 a b l2 Htabs Hnot Hact.
    assert (Hidx : firstIndex (_tabs p) (isActiveTab p) = Z.of_nat (List.length l1)).
    { unfold firstIndex. rewrite Htabs. rewrite firstIndexFrom_found;
        [lia | now apply isActiveTab_other with (a := a) | now apply isActiveTab_true]. }
    unfold selectOnNextTab. rewrite Hidx. cbv zeta.
    assert (Hlen : List.length (_tabs p) = List.length l1 + S (S (List.length l2)))
      by (rewrite Htabs, length_app; reflexivity).
    rewrite Hlen.
    replace ((Z.of_nat (List.length l1) + 1 =?
              Z.of_nat (List.length l1 + S (S (List.length l2))))%Z) with false
      by (symmetry; apply Z.eqb_neq; lia).
    apply selectTab_by_index. unfold arrayGet.
    replace ((Z.of_nat (List.length l1) + 1 <? 0)%Z) with false
      by (symmetry; apply Z.ltb_ge; lia).
    replace (Z.to_nat (Z.of_nat (List.length l1) + 1)) with (List.length l1 + 1) by lia.
    rewrite Htabs. rewrite nth_error_app2 by (apply Nat.le_add_r).
    replace (List.length l1 + 1 - List.length l1) with 1 by lia. reflexivity.
  - intros l1 a Htabs Hnot Hact.
    assert (Hidx : firstIndex (_tabs p) (isActiveTab p) = Z.of_nat (List.length l1)).
    { unfold firstIndex. rewrite Htabs. rewrite firstIndexFrom_found;
        [lia | now apply isActiveTab_other with (a := a) | now apply isActiveTab_true]. }
    unfold selectOnNextTab. rewrite Hidx. cbv zeta.
    assert (Hlen : List.length (_tabs p) = List.length l1 + 1)
      by (rewrite Htabs, length_app; reflexivity).
    rewrite Hlen.
    replace ((Z.of_nat (List.length l1) + 1 =? Z.of_nat (List.length l1 + 1))%Z)
      with true by (symmetry; apply Z.eqb_eq; lia).
    unfold selectFirstTab. destruct (_tabs p) as [| first rest] eqn:Hp.
    + destruct l1; discriminate Htabs.
    + apply selectTab_by_index. rewrite Hp. reflexivity.
  - intros Hnone.
    assert (Hidx : firstIndex (_tabs p) (isActiveTab p) = (-1)%Z).
    { unfold firstIndex. apply firstIndexFrom_none.
      intros x Hx. destruct (isActiveTab p x) eqn:Hact; [| reflexivity].
      apply isActiveTab_true in Hact. now apply Hnone in Hx. }
    unfold selectOnNextTab. rewrite Hidx. cbv zeta.
    unfold selectFirstTab. destruct (_tabs p) as [| first rest] eqn:Hp.
    + unfold selectTab. rewrite Hp. reflexivity.
    + replace ((-1 + 1 =? Z.of_nat (List.length (first :: rest)))%Z) with false
        by (symmetry; apply Z.eqb_neq; simpl List.length; lia).
      apply selectTab_by_index. rewrite Hp. reflexivity.
Qed.

(** The run of [closeTab] on a most-recently-used list without repetition. *)
Lemma closeTab_run (tab : TabRef) (p : PanelComponent) :
  NoDup (_mru p) ->
  closeTab tab p
  = let rest := filter (fun i => negb (Nat.eqb i tab)) (_mru p) in
    let closed := setMru rest (emitCall (EmitTabClose tab) p) in
    match rest with
    | mostRecent :: _ => selectTab (ByTab mostRecent) closed
    | [] => closed
    end.
Proof.
  intros Hnd. unfold closeTab. cbv zeta.
  set (p1 := emitCall (EmitTabClose tab) p).
  assert (Hmru : _mru (findAndRemoveTabFromMRU tab p1)
                 = filter (fun i => negb (Nat.eqb i tab)) (_mru p))
    by (apply (findAndRemoveTabFromMRU_mru tab p1); exact Hnd).
  assert (Heq : findAndRemoveTabFromMRU tab p1
                = setMru (filter (fun i => negb (Nat.eqb i tab)) (_mru p)) p1).
  { destruct (in_dec Nat.eq_dec tab (_mru p1)) as [Hin | Hnot].
    - apply in_split in Hin as (l1 & l2 & Hsplit).
      assert (Hnd1 : NoDup (_mru p1)) by exact Hnd.
      rewrite Hsplit in Hnd1. apply NoDup_remove in Hnd1 as [_ Hnot].
      assert (H1 : ~ In tab l1) by (intros H; apply Hnot, in_or_app; now left).
      rewrite (findAndRemoveTabFromMRU_present tab p1 l1 l2 Hsplit H1) in *.
      simpl in Hmru. now rewrite Hmru.
    - rewrite findAndRemoveTabFromMRU_absent in * by assumption.
      rewrite <- Hmru. reflexivity. }
  rewrite Heq. simpl _mru. reflexivity.
Qed.

(** X16.  Closing the active tab when another tab was used before it: the
    panel emits [onTabClose], drops the tab from the most-recently-used list
    and selects the tab used just before, which becomes the active tab; the
    closed tab is told [active = false] on the way. *)
Theorem closeTab_returns_to_the_previous_tab (tab previous : TabRef) (older : list TabRef)
        (p : PanelComponent) :
  _tabs p <> [] ->
  NoDup (_mru p) ->
  _mru p = tab :: previous :: older ->
  _activeTab p = Some tab ->
  _activeTab (closeTab tab p) = Some previous
  /\ _mru (closeTab tab p) = previous :: older
  /\ panelCalls (closeTab tab p)
     = panelCalls p
       ++ [EmitTabClose tab; SetActive tab false; SetActive previous true;
           EmitTabChange previous].
Proof.
  intros Hne Hnd Hmru Hact.
  assert (Hnd' : NoDup (tab :: previous :: older)) by (rewrite <- Hmru; exact Hnd).
  assert (Hnot : ~ In tab (previous :: older)) by (now inversion Hnd').
  assert (Hnot' : ~ In previous older)
    by (inversion Hnd' as [| ? ? _ Hnd'']; now inversion Hnd'').
  assert (Hrest : filter (fun i => negb (Nat.eqb i tab)) (_mru p) = previous :: older).
  { rewrite Hmru, filter_other_head. now apply filter_other_absent. }
  assert (Hpt : previous <> tab).
  { intros ->. apply Hnot. now left. }
  rewrite (closeTab_run tab p Hnd). cbv zeta. rewrite Hrest.
  set (closed := setMru (previous :: older) (emitCall (EmitTabClose tab) p)).
  rewrite (selectTab_found (ByTab previous) closed previous Hne eq_refl).
  assert (Hno : isActiveTab closed previous = false).
  { unfold isActiveTab, closed. simpl. rewrite Hact. now apply Nat.eqb_neq. }
  rewrite Hno.
  destruct (activate_fields previous (ensureIdentifiers closed)) as (_ & _ & _ & Ha & Hm & Hc).
  destruct (ensureIdentifiers_fields closed) as (_ & Ha' & Hm' & Hc' & _).
  rewrite Ha, Hm, Hc, Ha', Hc'. split; [reflexivity |]. split.
  - unfold setMostRecentlyUsed. cbn [_mru setMru].
    rewrite findAndRemoveTabFromMRU_mru; rewrite Hm'; unfold closed; cbn [_mru setMru].
    + rewrite filter_other_head. f_equal. now apply filter_other_absent.
    + now inversion Hnd'.
  - unfold closed. cbn [_activeTab panelCalls setMru emitCall].
    rewrite Hact, <- app_assoc. reflexivity.
Qed.

(** X17.  Closing a tab that is not the active one, the active tab heading
    the most-recently-used list, which holds no tab twice: the tab leaves
    the list and nothing is activated or deactivated.  [onTabClose] is
    emitted; on a panel that has tabs [onTabChange] is then emitted again for
    the active tab, and on a panel whose tab list is empty nothing else is
    emitted. *)
Theorem closeTab_of_a_background_tab (tab active : TabRef) (rest : list TabRef)
        (p : PanelComponent) :
  NoDup (_mru p) ->
  _mru p = active :: rest ->
  _activeTab p = Some active ->
  tab <> active ->
  _activeTab (closeTab tab p) = Some active
  /\ _mru (closeTab tab p) = active :: filter (fun i => negb (Nat.eqb i tab)) rest
  /\ panelCalls (closeTab tab p)
     = panelCalls p
       ++ EmitTabClose tab
          :: match _tabs p with
             | [] => []
             | _ :: _ => [EmitTabChange active]
             end.
Proof.
  intros Hnd Hmru Hact Hta.
  assert (Hrest : filter (fun i => negb (Nat.eqb i tab)) (_mru p)
                  = active :: filter (fun i => negb (Nat.eqb i tab)) rest).
  { rewrite Hmru. simpl. assert (H : active <> tab) by congruence.
    now apply Nat.eqb_neq in H as ->. }
  rewrite (closeTab_run tab p Hnd). cbv zeta. rewrite Hrest.
  set (closed := setMru _ (emitCall (EmitTabClose tab) p)).
  assert (Htabs : _tabs closed = _tabs p) by reflexivity.
  destruct (_tabs p) as [| first others] eqn:Hp.
  - assert (Hsame : selectTab (ByTab active) closed = closed)
      by (unfold selectTab; rewrite Htabs; reflexivity).
    rewrite Hsame. unfold closed. cbn [_activeTab _mru panelCalls setMru emitCall].
    repeat split. exact Hact.
  - assert (Hne : _tabs closed <> []) by (rewrite Htabs; discriminate).
    rewrite (selectTab_found (ByTab active) closed active Hne eq_refl).
    assert (Hyes : isActiveTab closed active = true) by (now apply isActiveTab_true).
    rewrite Hyes.
    destruct (ensureIdentifiers_fields closed) as (_ & Ha' & Hm' & Hc' & _).
    unfold emitCall at 1 2 3. cbn [_activeTab _mru panelCalls].
    rewrite Ha', Hm', Hc'. unfold closed. simpl. rewrite <- app_assoc.
    repeat split. exact Hact.
Qed.


(** ** The tab panel: what every use preserves *)

Lemma lastActive_app (l1 l2 : list PanelCall) (tab : TabRef) (before : option bool) :
  lastActive (l1 ++ l2) tab before = lastActive l2 tab (lastActive l1 tab before).
Proof.
  revert before. induction l1 as [| c l1 IH]; intros before; [reflexivity |].
  destruct c; simpl; apply IH.
Qed.

Lemma panelInvariant_emitCall (c : PanelCall) (p : PanelComponent) :
  (forall t val, c <> SetActive t val) -> panelInvariant p -> panelInvariant (emitCall c p).
Proof.
  intros Hc (Hnd & Hact & Hnone). unfold panelInvariant, toldActive in *.
  cbn [emitCall _mru _activeTab panelCalls].
  split; [exact Hnd |]. split; [| exact Hnone].
  intros t. rewrite lastActive_app.
  destruct c as [x | x | x val | x]; simpl; try apply Hact.
  exfalso. now apply (Hc x val).
Qed.

Lemma panelInvariant_ensureIdentifiers (p : PanelComponent) :
  panelInvariant p -> panelInvariant (ensureIdentifiers p).
Proof.
  unfold panelInvariant, toldActive.
  destruct (ensureIdentifiers_fields p) as (_ & -> & -> & -> & _). trivial.
Qed.

Lemma panelInvariant_activate (tab : TabRef) (p : PanelComponent) :
  panelInvariant p -> panelInvariant (activate tab p).
Proof.
  intros (Hnd & Hact & Hnone). unfold panelInvariant, toldActive in *.
  destruct (activate_fields tab p) as (_ & _ & _ & -> & -> & ->).
  split; [| split].
  - unfold setMostRecentlyUsed. cbn [_mru setMru].
    rewrite findAndRemoveTabFromMRU_mru by exact Hnd. now apply NoDup_filter_other.
  - intros t. rewrite !lastActive_app. simpl.
    destruct (Nat.eqb_spec tab t) as [-> | Hne].
    + split; reflexivity.
    + assert (Hrhs : Some tab = Some t <-> False) by (split; [congruence | tauto]).
      rewrite Hrhs. specialize (Hact t).
      destruct (_activeTab p) as [a |]; simpl.
      * destruct (Nat.eqb_spec a t) as [-> | Hat]; [split; [discriminate | tauto] |].
        rewrite Hact. split; [congruence | tauto].
      * rewrite Hact. split; [discriminate | tauto].
  - discriminate.
Qed.

Lemma panelInvariant_selectTab (input : SelectInput) (p : PanelComponent) :
  panelInvariant p -> panelInvariant (selectTab input p).
Proof.
  intros Hinv. unfold selectTab.
  destruct (Nat.ltb 0 (List.length (_tabs p))); [| exact Hinv].
  destruct (findTab input p) as [tab |]; [| exact Hinv].
  apply panelInvariant_ensureIdentifiers in Hinv.
  destruct (isActiveTab (ensureIdentifiers p) tab).
  - apply panelInvariant_emitCall; [discriminate | exact Hinv].
  - now apply panelInvariant_activate.
Qed.

Lemma panelInvariant_closeTab (tab : TabRef) (p : PanelComponent) :
  panelInvariant p -> panelInvariant (closeTab tab p).
Proof.
  intros Hinv. pose proof Hinv as (Hnd & _).
  rewrite (closeTab_run tab p Hnd). cbv zeta.
  assert (Hclosed : panelInvariant
                      (setMru (filter (fun i => negb (Nat.eqb i tab)) (_mru p))
                              (emitCall (EmitTabClose tab) p))).
  { apply (panelInvariant_emitCall (EmitTabClose tab)) in Hinv; [| discriminate].
    destruct Hinv as (Hnd1 & Hact1 & Hnone1).
    unfold panelInvariant, toldActive in *. cbn [_mru _activeTab panelCalls setMru emitCall] in *.
    split; [now apply NoDup_filter |]. split; [exact Hact1 |].
    intros Hn. rewrite (Hnone1 Hn). reflexivity. }
  destruct (filter (fun i => negb (Nat.eqb i tab)) (_mru p)) as [| mostRecent others];
    [exact Hclosed | now apply panelInvariant_selectTab].
Qed.

Lemma panelInvariant_perform (a : PanelAction) (p : PanelComponent) :
  panelInvariant p -> panelInvariant (perform a p).
Proof.
  intros Hinv. destruct a as [input | | tab | | tabs]; simpl.
  - now apply panelInvariant_selectTab.
  - unfold selectOnNextTab. now apply panelInvariant_selectTab.
  - now apply panelInvariant_closeTab.
  - unfold layout. destruct (_activeTab p);
      [apply panelInvariant_emitCall; [discriminate | exact Hinv] | exact Hinv].
  - unfold tabsChanged, selectFirstTab.
    assert (Hset : panelInvariant (setTabs tabs p)) by exact Hinv.
    destruct (_tabs (setTabs tabs p)); [exact Hset | now apply panelInvariant_selectTab].
Qed.

(** X19.  Whatever is done to a panel, starting before any selection
    (selecting by tab, index or identifier, moving to the next tab, closing
    tabs, laying out, replacing the tab list), the most-recently-used list
    never holds a tab twice, the tab last told [active = true] is the active
    tab and no other tab is, and the list is empty while no tab has been
    active. *)
Theorem panel_invariant_always_holds (actions : list PanelAction) (tabs : list TabRef)
        (identifiers : TabRef -> option string) (pool : nat) :
  panelInvariant (performAll actions (newPanel tabs identifiers pool)).
Proof.
  assert (Hinit : panelInvariant (newPanel tabs identifiers pool)).
  { unfold panelInvariant, toldActive. simpl. split; [constructor |].
    split; [| reflexivity]. intros t. split; discriminate. }
  unfold performAll. revert Hinit. generalize (newPanel tabs identifiers pool).
  induction actions as [| a actions IH]; intros p Hinv; [exact Hinv |].
  simpl. apply IH. now apply panelInvariant_perform.
Qed.

Lemma mruHeadIsActive_selectTab (input : SelectInput) (p : PanelComponent) :
  mruHeadIsActive p -> mruHeadIsActive (selectTab input p).
Proof.
  intros Hhead. unfold selectTab.
  destruct (Nat.ltb 0 (List.length (_tabs p))); [| exact Hhead].
  destruct (findTab input p) as [tab |]; [| exact Hhead].
  destruct (isActiveTab (ensureIdentifiers p) tab).
  - unfold mruHeadIsActive in *. cbn [emitCall _mru _activeTab].
    destruct (ensureIdentifiers_fields p) as (_ & -> & -> & _). exact Hhead.
  - unfold mruHeadIsActive.
    destruct (activate_fields tab (ensureIdentifiers p)) as (_ & _ & _ & -> & -> & _).
    unfold setMostRecentlyUsed. cbn [_mru setMru hd_error]. intros t [= ->]. reflexivity.
Qed.

(** X20.  The head of the most-recently-used list is the active tab, and
    this is kept by every selection, by moving to the next tab, by laying
    out, by a change of the tab list, and by closing a tab as long as the
    panel has tabs. *)
Theorem mru_head_stays_the_active_tab (a : PanelAction) (p : PanelComponent) :
  mruHeadIsActive p ->
  (forall tab, a = DoCloseTab tab -> _tabs p <> []) ->
  mruHeadIsActive (perform a p).
Proof.
  intros Hhead Hclose. destruct a as [input | | tab | | tabs]; simpl.
  - now apply mruHeadIsActive_selectTab.
  - unfold selectOnNextTab. now apply mruHeadIsActive_selectTab.
  - specialize (Hclose tab eq_refl). unfold closeTab.
    set (closed := findAndRemoveTabFromMRU tab (emitCall (EmitTabClose tab) p)).
    destruct (_mru closed) as [| mostRecent others] eqn:Hmru.
    + unfold mruHeadIsActive. rewrite Hmru. discriminate.
    + assert (Htabs : _tabs closed <> []).
      { unfold closed, findAndRemoveTabFromMRU.
        destruct (negb _); exact Hclose. }
      rewrite (selectTab_found (ByTab mostRecent) closed mostRecent Htabs eq_refl).
      destruct (isActiveTab closed mostRecent) eqn:Hact.
      * apply isActiveTab_true in Hact. unfold mruHeadIsActive.
        cbn [emitCall _mru _activeTab].
        destruct (ensureIdentifiers_fields closed) as (_ & -> & -> & _).
        rewrite Hmru. intros t [= <-]. exact Hact.
      * unfold mruHeadIsActive.
        destruct (activate_fields mostRecent (ensureIdentifiers closed))
          as (_ & _ & _ & -> & -> & _).
        unfold setMostRecentlyUsed. cbn [_mru setMru hd_error]. intros t [= ->]. reflexivity.
  - unfold layout. destruct (_activeTab p) eqn:Hact; exact Hhead.
  - unfold tabsChanged, selectFirstTab.
    assert (Hset : mruHeadIsActive (setTabs tabs p)) by exact Hhead.
    destruct (_tabs (setTabs tabs p)); [exact Hset | now apply mruHeadIsActive_selectTab].
Qed.

(** ** The tab panel: keyboard focus *)

Lemma firstIndex_range {A : Type} (array : list A) (fn : A -> bool) :
  firstIndex array fn = (-1)%Z
  \/ (0 <= firstIndex array fn < Z.of_nat (List.length array))%Z.
Proof.
  destruct (firstIndex_cases fn array) as [[H _] | (l1 & x & l2 & -> & _ & _ & ->)].
  - now left.
  - right. rewrite length_app. simpl. lia.
Qed.

(** X21.  With the focus on the tab header of index [current],
    [focusNextTab] asks the following header to take the focus, the first
    one after the last; [focusPreviousTab] asks the preceding header, the
    last one before the first; from the index either of them asks for, the
    other asks for [current] again; and the header asked for always
    exists. *)
Theorem focus_moves_round_the_tab_headers (current length : Z) :
  (0 <= current < length)%Z ->
  focusNextTab current length = Some ((current + 1) mod length)%Z
  /\ focusPreviousTab current length = Some ((current - 1) mod length)%Z
  /\ focusPreviousTab ((current + 1) mod length) length = Some current
  /\ focusNextTab ((current - 1) mod length) length = Some current
  /\ (0 <= (current + 1) mod length < length)%Z
  /\ (0 <= (current - 1) mod length < length)%Z.
Proof.
  intros Hrange.
  assert (Hnext : forall c, (0 <= c < length)%Z ->
                            focusNextTab c length = Some ((c + 1) mod length)%Z).
  { intros c Hc. unfold focusNextTab, focusOnTabHeader.
    replace (negb (c =? -1)%Z) with true by (symmetry; apply negb_true_iff, Z.eqb_neq; lia).
    destruct (Z.eqb_spec c (length - 1)) as [-> | Hlast].
    - replace (length - 1 + 1)%Z with length by lia. rewrite Z.mod_same by lia.
      replace ((0 <=? 0) && (0 <=? length - 1))%Z%bool with true; [reflexivity |].
      symmetry. apply andb_true_iff. split; apply Z.leb_le; lia.
    - rewrite Z.mod_small by lia.
      replace ((0 <=? c + 1) && (c + 1 <=? length - 1))%Z%bool with true; [reflexivity |].
      symmetry. apply andb_true_iff. split; apply Z.leb_le; lia. }
  assert (Hprev : forall c, (0 <= c < length)%Z ->
                            focusPreviousTab c length = Some ((c - 1) mod length)%Z).
  { intros c Hc. unfold focusPreviousTab, focusOnTabHeader.
    replace (negb (c =? -1)%Z) with true by (symmetry; apply negb_true_iff, Z.eqb_neq; lia).
    destruct (Z.eqb_spec c 0) as [-> | Hfirst].
    - replace ((0 - 1) mod length)%Z with (length - 1)%Z.
      + replace ((0 <=? length - 1) && (length - 1 <=? length - 1))%Z%bool with true;
          [reflexivity |].
        symmetry. apply andb_true_iff. split; apply Z.leb_le; lia.
      + apply Z.mod_unique with (q := (-1)%Z); lia.
    - rewrite Z.mod_small by lia.
      replace ((0 <=? c - 1) && (c - 1 <=? length - 1))%Z%bool with true; [reflexivity |].
      symmetry. apply andb_true_iff. split; apply Z.leb_le; lia. }
  assert (Hn : (0 <= (current + 1) mod length < length)%Z) by (apply Z.mod_pos_bound; lia).
  assert (Hp : (0 <= (current - 1) mod length < length)%Z) by (apply Z.mod_pos_bound; lia).
  split; [now apply Hnext |]. split; [now apply Hprev |].
  split; [| split; [| split; assumption]].
  - rewrite (Hprev _ Hn). f_equal.
    rewrite Zminus_mod_idemp_l. replace (current + 1 - 1)%Z with current by lia.
    apply Z.mod_small. lia.
  - rewrite (Hnext _ Hp). f_equal.
    rewrite Zplus_mod_idemp_l. replace (current - 1 + 1)%Z with current by lia.
    apply Z.mod_small. lia.
Qed.

(** X22.  An arrow key is always marked as handled, also when no tab header
    has the focus, in which case no header is asked to take it; any other
    key is left alone.  A header that is asked to take the focus is one of
    the headers. *)
Theorem onKey_handles_the_arrow_keys (equals : KeyCode -> bool) (headers : list nat)
        (activeElement : option nat) :
  snd (onKey equals headers activeElement)
  = (equals DownArrow || equals RightArrow || equals UpArrow || equals LeftArrow)
  /\ ((forall e, activeElement = Some e -> ~ In e headers) ->
      fst (onKey equals headers activeElement) = None)
  /\ (forall index,
         fst (onKey equals headers activeElement) = Some index ->
         (0 <= index < Z.of_nat (List.length headers))%Z).
Proof.
  split; [| split].
  - unfold onKey. destruct (equals DownArrow), (equals RightArrow), (equals UpArrow),
      (equals LeftArrow); reflexivity.
  - intros Hnone.
    assert (Hidx : focusedTabHeaderIndex headers activeElement = (-1)%Z).
    { unfold focusedTabHeaderIndex, firstIndex. apply firstIndexFrom_none.
      intros x Hx. destruct activeElement as [e |]; [| reflexivity].
      apply Nat.eqb_neq. intros ->. now apply (Hnone e eq_refl). }
    unfold onKey. rewrite Hidx.
    destruct (equals DownArrow || equals RightArrow);
      [reflexivity | destruct (equals UpArrow || equals LeftArrow); reflexivity].
  - intros index. unfold onKey, focusNextTab, focusPreviousTab, focusOnTabHeader.
    set (current := focusedTabHeaderIndex headers activeElement).
    set (n := Z.of_nat (List.length headers)).
    destruct (equals DownArrow || equals RightArrow); cbn [fst];
      [| destruct (equals UpArrow || equals LeftArrow); cbn [fst]; [| discriminate]];
      destruct (negb (current =? -1)%Z); try discriminate;
      match goal with
      | |- context [((0 <=? ?i) && (?i <=? n - 1))%Z%bool] =>
          destruct (Z.leb_spec 0 i); destruct (Z.leb_spec i (n - 1)); simpl;
          try discriminate; intros [= <-]; lia
      end.
Qed.

(** ** The further properties on concrete records and panels *)

(** X1 on a record whose container is [null]. *)
Lemma missing_container_is_rejected_witness :
  truthy (IDashboardTabContrib.title noContainerTab) = true
  /\ truthy (IDashboardTabContrib.container noContainerTab) = false
  /\ emitted (handleTab (imports := Sample.imports) noContainerTab Sample.extension) 0
     = [Collect Sample.contoso
                {| severity := SevWarning; message := "No description specified to show." |};
        Collect Sample.contoso
                {| severity := SevError; message := "No container specified for extension." |}].
Proof.
  split; [reflexivity |]. split; [reflexivity |].
  exact (proj1 (missing_container_is_rejected (imports := Sample.imports)
                  noContainerTab Sample.extension 0 eq_refl eq_refl)).
Defined.

(** X2 on a record with a valid icon whose widget list is the number 3: no
    tab is registered, and one icon class has been handed out. *)
Lemma refused_record_still_resolves_its_icon_witness :
  structurallyValid refusedWithIconTab = true
  /\ containerVerdict (imports := Sample.imports) refusedWithIconTab Sample.extension 0 = false
  /\ registrations
       (emitted (handleTab (imports := Sample.imports) refusedWithIconTab Sample.extension) 0)
     = []
  /\ after (handleTab (imports := Sample.imports) refusedWithIconTab Sample.extension) 0 = 1.
Proof.
  split; [reflexivity |]. split; [reflexivity |].
  destruct (refused_record_still_resolves_its_icon (imports := Sample.imports)
              refusedWithIconTab Sample.extension 0 eq_refl eq_refl)
    as (Hreg & _ & Hafter).
  split; [exact Hreg | exact Hafter].
Defined.

(** X4 on a record with a list of two providers that asks to be a home
    tab. *)
Lemma provider_is_kept_or_defaulted_witness :
  exists t,
    registrations
      (emitted (handleTab (imports := Sample.imports) twoProvidersTab Sample.extension) 0)
    = [t]
    /\ IDashboardTab.provider t = JSArray [JSString "MSSQL"; JSString "PGSQL"]
    /\ IDashboardTab.isHomeTab t = JSBool true.
Proof.
  eexists. split; [vm_compute; reflexivity |].
  refine (proj1 (provider_is_kept_or_defaulted (imports := Sample.imports)
                   twoProvidersTab Sample.extension 0 _ _) _).
  - vm_compute. left. reflexivity.
  - reflexivity.
Defined.

(** X5 on a record whose container is a list of one string. *)
Lemma container_that_is_not_a_mapping_witness :
  truthy (IDashboardTabContrib.title listContainerTab) = true
  /\ map IDashboardTab.container
         (registrations
            (emitted (handleTab (imports := Sample.imports) listContainerTab
                                Sample.extension) 0))
     = [JSArray [JSString "widgets-container"]].
Proof.
  split; [reflexivity |].
  destruct (container_that_is_not_a_mapping (imports := Sample.imports)
              listContainerTab Sample.extension 0 eq_refl) as [Hlist _].
  destruct (Hlist (JSString "widgets-container") eq_refl) as (_ & _ & _ & Hreg).
  rewrite Hreg. reflexivity.
Defined.

(** X6 on the first call of the sample batch. *)
Lemma setHandler_stays_within_the_batch_witness :
  exists extension,
    In extension Sample.extensions
    /\ ((exists m,
            Collect Sample.contoso
                    {| severity := SevWarning; message := "No description specified to show." |}
            = Collect (IExtensionPointUser.description extension) m)
        \/ (exists t,
               Collect Sample.contoso
                       {| severity := SevWarning;
                          message := "No description specified to show." |}
               = RegisterTab t
               /\ IDashboardTab.publisher t
                  = IExtensionDescription.publisher
                      (IExtensionPointUser.description extension))).
Proof.
  apply (setHandler_stays_within_the_batch (imports := Sample.imports) Sample.extensions 0).
  vm_compute. left. reflexivity.
Defined.

Lemma sample_mru_NoDup : NoDup [30; 20; 10].
Proof.
  repeat constructor; simpl; intuition discriminate.
Qed.

Lemma sample_mru_NoDup2 : NoDup [20; 10].
Proof.
  repeat constructor; simpl; intuition discriminate.
Qed.

Lemma sample_mru_NoDup1 : NoDup [10].
Proof.
  repeat constructor; simpl; intuition.
Qed.

(** X9 on the list third, second, first: the first tab moves to the front. *)
Lemma setMostRecentlyUsed_moves_to_front_witness :
  NoDup (_mru panelOnThird)
  /\ _mru (setMostRecentlyUsed 10 panelOnThird) = [10; 30; 20].
Proof.
  split; [exact sample_mru_NoDup |].
  exact (proj1 (setMostRecentlyUsed_moves_to_front 10 panelOnThird sample_mru_NoDup)).
Defined.

(** X10 on an index past the end and on an identifier no tab carries yet. *)
Lemma selectTab_without_target_does_nothing_witness :
  selectTab (ByIndex 3) samplePanel = samplePanel
  /\ selectTab (ByIndex (-1)) samplePanel = samplePanel
  /\ selectTab (ByIdentifier "tabIndex_5") samplePanel = samplePanel.
Proof.
  destruct (selectTab_without_target_does_nothing samplePanel) as (_ & Hindex & Hid).
  split; [apply Hindex; simpl; lia |]. split; [apply Hindex; simpl; lia |].
  apply Hid. intros i [<- | [<- | [<- | []]]]; discriminate.
Defined.

(** X11 on the second tab of a panel whose first tab is active. *)
Lemma selectTab_activates_the_tab_witness :
  findTab (ByIndex 1) panelOnFirst = Some 20
  /\ _activeTab (selectTab (ByIndex 1) panelOnFirst) = Some 20
  /\ _mru (selectTab (ByIndex 1) panelOnFirst) = [20; 10]
  /\ panelCalls (selectTab (ByIndex 1) panelOnFirst)
     = [SetActive 10 false; SetActive 20 true; EmitTabChange 20].
Proof.
  split; [reflexivity |].
  destruct (selectTab_activates_the_tab (ByIndex 1) panelOnFirst 20)
    as (Ha & Hm & Hc & _);
    [discriminate | reflexivity | discriminate | exact sample_mru_NoDup1 |].
  split; [exact Ha |]. split; [exact Hm | exact Hc].
Defined.

(** X12 on the active tab, selected by its identifier. *)
Lemma selectTab_on_the_active_tab_only_emits_witness :
  findTab (ByIdentifier "home") panelOnFirst = Some 10
  /\ _mru (selectTab (ByIdentifier "home") panelOnFirst) = [10]
  /\ panelCalls (selectTab (ByIdentifier "home") panelOnFirst) = [EmitTabChange 10].
Proof.
  split; [reflexivity |].
  destruct (selectTab_on_the_active_tab_only_emits (ByIdentifier "home") panelOnFirst 10)
    as (_ & Hm & Hc); [reflexivity | reflexivity |].
  split; [exact Hm | exact Hc].
Defined.

(** X12 on the same panel once its tab list is empty: nothing is emitted. *)
Example selectTab_on_the_active_tab_of_an_empty_panel :
  selectTab (ByTab 20) (setTabs [] panelOnSecond) = setTabs [] panelOnSecond.
Proof. reflexivity. Qed.

(** X13 on the sample panel: the tab without identifier and the tab with
    the empty identifier get one, the named tab keeps its name. *)
Lemma selectTab_gives_every_tab_an_identifier_witness :
  lacksIdentifier (identifierOf (selectTab (ByIndex 0) samplePanel) 20) = false
  /\ lacksIdentifier (identifierOf (selectTab (ByIndex 0) samplePanel) 30) = false
  /\ identifierOf (selectTab (ByIndex 0) samplePanel) 10 = Some "home".
Proof.
  destruct (selectTab_gives_every_tab_an_identifier (ByIndex 0) samplePanel 10)
    as (Hall & Hkept & _); [discriminate | reflexivity |].
  split; [apply Hall; simpl; tauto |]. split; [apply Hall; simpl; tauto |].
  exact (Hkept 10 eq_refl).
Defined.

(** X14 on the sample panel, whose counter stands at 5. *)
Lemma selectTab_makes_fresh_identifiers_witness :
  idPool samplePanel <= idPool (selectTab (ByIndex 0) samplePanel)
  /\ identifierOf (selectTab (ByIndex 0) samplePanel) 20
     <> identifierOf (selectTab (ByIndex 0) samplePanel) 30.
Proof.
  destruct (selectTab_makes_fresh_identifiers (ByIndex 0) samplePanel 10)
    as (Hpool & _ & Hdistinct); [discriminate | reflexivity |].
  split; [exact Hpool |].
  apply Hdistinct; simpl; try tauto; try reflexivity. discriminate.
Defined.

(** The identifiers and the counter of that run. *)
Example selectTab_numbers_the_tabs_in_order :
  map (identifierOf (selectTab (ByIndex 0) samplePanel)) [10; 20; 30]
  = [Some "home"; Some "tabIndex_5"; Some "tabIndex_6"]
  /\ idPool (selectTab (ByIndex 0) samplePanel) = 7.
Proof. split; vm_compute; reflexivity. Qed.

(** X15 from the second tab to the third, and from the third round to the
    first. *)
Lemma selectOnNextTab_goes_round_witness :
  selectOnNextTab panelOnSecond = selectTab (ByTab 30) panelOnSecond
  /\ selectOnNextTab panelOnThird = selectFirstTab panelOnThird.
Proof.
  split.
  - destruct (selectOnNextTab_goes_round panelOnSecond) as (Hnext & _).
    apply (Hnext [10] 20 30 []); [reflexivity | | reflexivity].
    simpl. intuition discriminate.
  - destruct (selectOnNextTab_goes_round panelOnThird) as (_ & Hround & _).
    apply (Hround [10; 20] 30); [reflexivity | | reflexivity].
    simpl. intuition discriminate.
Defined.

(** X16 on closing the second tab while it is active. *)
Lemma closeTab_returns_to_the_previous_tab_witness :
  _activeTab (closeTab 20 panelOnSecond) = Some 10
  /\ _mru (closeTab 20 panelOnSecond) = [10]
  /\ panelCalls (closeTab 20 panelOnSecond)
     = [EmitTabClose 20; SetActive 20 false; SetActive 10 true; EmitTabChange 10].
Proof.
  apply (closeTab_returns_to_the_previous_tab 20 10 [] panelOnSecond);
    [discriminate | exact sample_mru_NoDup2 | reflexivity | reflexivity].
Defined.

(** X17 on closing the first tab while the second is active. *)
Lemma closeTab_of_a_background_tab_witness :
  _activeTab (closeTab 10 panelOnSecond) = Some 20
  /\ _mru (closeTab 10 panelOnSecond) = [20]
  /\ panelCalls (closeTab 10 panelOnSecond) = [EmitTabClose 10; EmitTabChange 20].
Proof.
  apply (closeTab_of_a_background_tab 10 20 [10] panelOnSecond);
    [exact sample_mru_NoDup2 | reflexivity | reflexivity | discriminate].
Defined.

(** X17 on the same panel once its tab list is empty: [onTabClose] only. *)
Example closeTab_of_a_background_tab_of_an_empty_panel :
  panelCalls (closeTab 10 (setTabs [] panelOnSecond)) = [EmitTabClose 10].
Proof. reflexivity. Qed.


Lemma panelOnSecond_head : mruHeadIsActive panelOnSecond.
Proof.
  intros t [= <-]. reflexivity.
Qed.

(** X20 on closing the active second tab. *)
Lemma mru_head_stays_the_active_tab_witness :
  mruHeadIsActive panelOnSecond
  /\ mruHeadIsActive (perform (DoCloseTab 20) panelOnSecond).
Proof.
  split; [exact panelOnSecond_head |].
  apply (mru_head_stays_the_active_tab (DoCloseTab 20) panelOnSecond panelOnSecond_head).
  intros tab _. discriminate.
Defined.

(** Without tabs in the panel, closing the active tab leaves a list whose
    head is not the active tab. *)
Example closeTab_on_a_panel_without_tabs :
  let p := closeTab 20 (setTabs [] panelOnSecond) in
  _activeTab p = Some 20 /\ _mru p = [10].
Proof. split; reflexivity. Qed.

(** X21 on the last of three headers. *)
Lemma focus_moves_round_the_tab_headers_witness :
  focusNextTab 2 3 = Some 0%Z
  /\ focusPreviousTab 2 3 = Some 1%Z
  /\ focusPreviousTab 0 3 = Some 2%Z.
Proof.
  destruct (focus_moves_round_the_tab_headers 2 3 ltac:(lia)) as (Hn & Hp & Hb & _).
  split; [exact Hn |]. split; [exact Hp | exact Hb].
Defined.

(** A user's path through the panel: open it, go to the second tab, to the
    next one, close it, close the second tab. *)
Example panel_scenario :
  let p := performAll [DoTabsChanged [10; 20; 30]; DoSelectTab (ByIndex 1);
                       DoSelectOnNextTab; DoCloseTab 30; DoCloseTab 20]
                      (newPanel [] sampleIdentifiers 5) in
  _activeTab p = Some 10
  /\ _mru p = [10]
  /\ getActiveTab p = Some "home"
  /\ panelCalls p
     = [SetActive 10 true; EmitTabChange 10;
        SetActive 10 false; SetActive 20 true; EmitTabChange 20;
        SetActive 20 false; SetActive 30 true; EmitTabChange 30;
        EmitTabClose 30; SetActive 30 false; SetActive 20 true; EmitTabChange 20;
        EmitTabClose 20; SetActive 20 false; SetActive 10 true; EmitTabChange 10].
Proof. repeat split; vm_compute; reflexivity. Qed.

(** X23 on the second tab of the sample panel, which has no identifier
    before it is selected. *)
Lemma getActiveTab_names_the_selected_tab_witness :
  identifierOf samplePanel 20 = None
  /\ exists s,
      getActiveTab (selectTab (ByIndex 1) samplePanel) = Some s
      /\ s <> ""
      /\ identifierOf (selectTab (ByIndex 1) samplePanel) 20 = Some s.
Proof.
  split; [reflexivity |].
  destruct (getActiveTab_names_the_selected_tab (ByIndex 1) samplePanel 20)
    as (s & Hget & Hne & Hid & _);
    [discriminate | reflexivity | simpl; tauto |].
  exists s. split; [exact Hget |]. split; [exact Hne | exact Hid].
Defined.

(** The identifier of that tab, and the way back to the tab. *)
Example getActiveTab_round_trip :
  getActiveTab (selectTab (ByIndex 1) samplePanel) = Some "tabIndex_5"
  /\ findTab (ByIdentifier "tabIndex_5") (selectTab (ByIndex 1) samplePanel) = Some 20.
Proof. split; vm_compute; reflexivity. Qed.

(** X24 on the scenario record: the widget validator accepts the empty
    list, and the tab is registered. *)
Lemma known_kind_is_decided_by_its_validator_witness :
  truthy (IDashboardTabContrib.title Sample.tasksTab) = true
  /\ helperResult
       (validateWidgetContainerContribution (Imports := Sample.imports)
          Sample.extension (JSArray [])) 0 = true
  /\ registrations
       (emitted (handleTab (imports := Sample.imports) Sample.tasksTab Sample.extension) 0)
     <> [].
Proof.
  split; [reflexivity |]. split; [reflexivity |].
  destruct (known_kind_is_decided_by_its_validator (imports := Sample.imports)
              Sample.tasksTab Sample.extension 0 (JSArray []) eq_refl) as (Hwidgets & _).
  destruct (Hwidgets eq_refl) as (_ & _ & Hiff). apply Hiff. reflexivity.
Defined.
